(** * Authentication-mode resolution and OAuth/OIDC configuration assembly

    A shallow embedding of the web console's authentication configuration
    module ([getActiveAuthMode], [getOAuthConfig], [getOIDCConfig],
    [getOAuth2Config]) together with the properties its specification
    states about it.

    The module reads two ambient values, the process-wide [environment]
    constant and [window.location.origin]; both are explicit arguments here.
    The object literals it returns are finite maps from property names to
    JavaScript values, so that the set of properties of a result is part of
    what is proved. *)

From Stdlib Require Import String Ascii Bool.
From stdpp Require Import base option gmap strings fin_maps.

Local Open Scope string_scope.

(** ** JavaScript values and operators used by the module *)

(** The values that occur as properties of the returned objects. *)
Inductive jsval : Type :=
  | VUndefined
  | VString (s : string)
  | VBoolean (b : bool).

#[global] Instance jsval_eq_dec : EqDecision jsval.
Proof. solve_decision. Defined.

(** A textual setting of the environment: a string, or [None] when the
    setting is unset ([undefined]). *)
Abbreviation setting := (option string) (only parsing).

(** Reading a setting as a property value. *)
Definition of_setting (v : setting) : jsval :=
  match v with
  | Some s => VString s
  | None => VUndefined
  end.

(** [ToBoolean] on a setting: [undefined] and [''] are falsy. *)
Definition truthy (v : setting) : bool :=
  match v with
  | Some (String _ _) => true
  | _ => false
  end.

(** [v || d] with a string on the right. *)
Definition js_or (v : setting) (d : string) : string :=
  match v with
  | Some s => if truthy v then s else d
  | None => d
  end.

(** [${v}] inside a template literal ([ToString]). *)
Definition tmpl (v : setting) : string :=
  match v with
  | Some s => s
  | None => "undefined"
  end.

(** ** The environment *)

(** Modelled from the spec: the declaration of the [environment] constant
    (environments/environment.ts) is not among the sources; this is its
    [oauth] part, with the fields the module reads, typed as the data model
    gives them: a boolean switch and textual settings, each of which may be
    unset or empty. *)
Record OAuthSettings : Type := {
  enabled : bool;
  serverUrl : setting;
  realm : setting;
  authorizeUrl : setting;
  tokenUrl : setting;
  logoutUrl : setting;
  redirectUri : setting;
  scope : setting;
  appId : setting
}.

(** Modelled from the spec: the [OIDC] part of the [environment] constant,
    whose declaration is not among the sources. *)
Record OIDCSettings : Type := {
  oidcServerEnabled : bool;
  oidcBaseUrl : setting;
  oidcClientId : setting;
  oidcFrontUrl : setting
}.

(** Modelled from the spec: the [environment] constant, whose declaration
    is not among the sources, cut down to what the module reads. *)
Record Environment : Type := {
  production : bool;
  oauth : OAuthSettings;
  OIDC : OIDCSettings
}.

(** ** AuthMode *)

Module AuthMode.

Inductive t : Type :=
  | OAuth2
  | OIDC
  | Basic.

(** The string each member of the enum stands for. *)
Definition value (m : t) : string :=
  match m with
  | OAuth2 => "oauth2"
  | OIDC => "oidc"
  | Basic => "basic"
  end.

End AuthMode.

#[global] Instance AuthMode_eq_dec : EqDecision AuthMode.t.
Proof. solve_decision. Defined.

(** ** AuthConfig objects *)

Abbreviation AuthConfig := (gmap string jsval) (only parsing).

(** An object literal [{k1: v1, ..., kn: vn}]. *)
Definition obj (props : list (string * jsval)) : AuthConfig :=
  list_to_map props.

(** ** The module *)

Definition getActiveAuthMode (environment : Environment) : AuthMode.t :=
  if oidcServerEnabled (OIDC environment) then AuthMode.OIDC
  else if enabled (oauth environment) then AuthMode.OAuth2
  else AuthMode.Basic.

Definition getOIDCConfig (environment : Environment) (origin : string) : AuthConfig :=
  let frontUrl := js_or (oidcFrontUrl (OIDC environment)) origin in
  obj [ ("issuer", of_setting (oidcBaseUrl (OIDC environment)));
        ("clientId", of_setting (oidcClientId (OIDC environment)));
        ("redirectUri", VString (frontUrl +:+ "/callback"));
        ("postLogoutRedirectUri", VString (frontUrl +:+ "/#/login"));
        ("responseType", VString "code");
        ("scope", VString "openid profile email offline_access");
        ("oidc", VBoolean true);
        ("useSilentRefresh", VBoolean false);
        ("requireHttps", VBoolean (production environment));
        ("showDebugInformation", VBoolean (negb (production environment)));
        ("sessionChecksEnabled", VBoolean false);
        ("clearHashAfterLogin", VBoolean false) ].

(** The constants local to [getOAuth2Config], one definition per [const]. *)
Module Const.

Definition realm (environment : Environment) : string :=
  js_or (realm (oauth environment)) "fineract".

(** [serverUrl ? `${serverUrl}/realms/${realm}/protocol/openid-connect/<endpoint>` : ''] *)
Definition derived (environment : Environment) (endpoint : string) : string :=
  let serverUrl := serverUrl (oauth environment) in
  if truthy serverUrl
  then tmpl serverUrl +:+ "/realms/" +:+ realm environment
         +:+ "/protocol/openid-connect/" +:+ endpoint
  else "".

Definition authorizeUrl (environment : Environment) : string :=
  js_or (authorizeUrl (oauth environment)) (derived environment "auth").

Definition tokenUrl (environment : Environment) : string :=
  js_or (tokenUrl (oauth environment)) (derived environment "token").

Definition logoutUrl (environment : Environment) : string :=
  js_or (logoutUrl (oauth environment)) (derived environment "logout").

Definition redirectUri (environment : Environment) (origin : string) : string :=
  js_or (redirectUri (oauth environment)) (origin +:+ "/#/callback").

Definition scope (environment : Environment) : string :=
  js_or (scope (oauth environment)) "openid profile email".

End Const.

Definition getOAuth2Config (environment : Environment) (origin : string) : AuthConfig :=
  let frontendUrl := origin in
  let serverUrl := serverUrl (oauth environment) in
  let realm := Const.realm environment in
  let authorizeUrl := Const.authorizeUrl environment in
  let tokenUrl := Const.tokenUrl environment in
  let logoutUrl := Const.logoutUrl environment in
  let redirectUri := Const.redirectUri environment frontendUrl in
  let scope := Const.scope environment in
  obj [ ("issuer", VString (tmpl serverUrl +:+ "/realms/" +:+ realm));
        ("loginUrl", VString authorizeUrl);
        ("tokenEndpoint", VString tokenUrl);
        ("redirectUri", VString redirectUri);
        ("postLogoutRedirectUri", VString (frontendUrl +:+ "/#/login"));
        ("clientId", of_setting (appId (oauth environment)));
        ("responseType", VString "code");
        ("scope", VString scope);
        ("useSilentRefresh", VBoolean false);
        ("oidc", VBoolean false);
        ("skipIssuerCheck", VBoolean true);
        ("strictDiscoveryDocumentValidation", VBoolean false);
        ("requireHttps", VBoolean (production environment));
        ("showDebugInformation", VBoolean (negb (production environment)));
        ("sessionChecksEnabled", VBoolean false);
        ("clearHashAfterLogin", VBoolean false) ].

Definition getOAuthConfig (environment : Environment) (origin : string) : AuthConfig :=
  let authMode := getActiveAuthMode environment in
  match authMode with
  | AuthMode.OIDC => getOIDCConfig environment origin
  | AuthMode.OAuth2 => getOAuth2Config environment origin
  | _ => obj [ ("clientId", VString "") ]
  end.


(** ** Vocabulary of the specification *)

(** A setting is provided when it is set to a non-empty string; it is blank
    when it is unset or empty. *)
Definition provided (v : setting) : Prop :=
  exists s, v = Some s /\ s <> "".

Definition blank (v : setting) : Prop :=
  v = None \/ v = Some "".

(** "Explicit value if provided, else the default." *)
Definition or_default (v : setting) (default : string) : string :=
  match v with
  | Some "" | None => default
  | Some s => s
  end.

(** The Keycloak URL convention
    [{serverUrl}/realms/{realm}/protocol/openid-connect/{endpoint}]. *)
Definition keycloak (server realm endpoint : string) : string :=
  server +:+ "/realms/" +:+ realm +:+ "/protocol/openid-connect/" +:+ endpoint.

(** The three-step fallback of the endpoint URLs, in the words of the
    specification: the override if provided; else the Keycloak convention
    when the server URL is non-empty, with the realm defaulting to
    ['fineract']; else the empty string. *)
Definition resolve_endpoint (override server realm : setting) (endpoint : string) : string :=
  match override with
  | Some (String a u) => String a u
  | _ =>
      match server with
      | Some (String b s) => keycloak (String b s) (or_default realm "fineract") endpoint
      | _ => ""
      end
  end.

(** ** Sample environments *)

Definition oauth_off : OAuthSettings :=
  {| enabled := false; serverUrl := Some ""; realm := None;
     authorizeUrl := Some ""; tokenUrl := Some ""; logoutUrl := Some "";
     redirectUri := Some ""; scope := Some ""; appId := Some "" |}.

Definition oidc_off : OIDCSettings :=
  {| oidcServerEnabled := false; oidcBaseUrl := Some "";
     oidcClientId := Some ""; oidcFrontUrl := Some "" |}.

(** OAuth2 switched on with nothing else configured. *)
Definition oauth_bare : OAuthSettings :=
  {| enabled := true; serverUrl := Some ""; realm := None;
     authorizeUrl := None; tokenUrl := None; logoutUrl := None;
     redirectUri := None; scope := None; appId := Some "" |}.

(** A Keycloak server with the default realm and no overrides. *)
Definition oauth_keycloak : OAuthSettings :=
  {| enabled := true; serverUrl := Some "https://auth.example.com"; realm := None;
     authorizeUrl := None; tokenUrl := None; logoutUrl := None;
     redirectUri := None; scope := None; appId := Some "community-app" |}.

(** The same server with every override given. *)
Definition oauth_overridden : OAuthSettings :=
  {| enabled := true; serverUrl := Some "https://auth.example.com"; realm := Some "mifos";
     authorizeUrl := Some "https://sso.example.com/authorize";
     tokenUrl := Some "https://sso.example.com/token";
     logoutUrl := Some "https://sso.example.com/logout";
     redirectUri := Some "https://app.example.com/cb";
     scope := Some "openid"; appId := Some "community-app" |}.

Definition oidc_on : OIDCSettings :=
  {| oidcServerEnabled := true; oidcBaseUrl := Some "https://id.example.com";
     oidcClientId := Some "web-app"; oidcFrontUrl := Some "" |}.

Definition env_basic : Environment :=
  {| production := false; oauth := oauth_off; OIDC := oidc_off |}.

Definition env_oauth2_bare : Environment :=
  {| production := false; oauth := oauth_bare; OIDC := oidc_off |}.

Definition env_keycloak : Environment :=
  {| production := true; oauth := oauth_keycloak; OIDC := oidc_off |}.

Definition env_overridden : Environment :=
  {| production := true; oauth := oauth_overridden; OIDC := oidc_off |}.

Definition env_oidc : Environment :=
  {| production := true; oauth := oauth_off; OIDC := oidc_on |}.

(** Both switches on: the inconsistent set-up the priority order settles. *)
Definition env_both : Environment :=
  {| production := false; oauth := oauth_keycloak; OIDC := oidc_on |}.

(** OIDC with a front URL of its own. *)
Definition env_oidc_front : Environment :=
  {| production := true; oauth := oauth_off;
     OIDC := {| oidcServerEnabled := true;
                oidcBaseUrl := Some "https://id.example.com";
                oidcClientId := Some "web-app";
                oidcFrontUrl := Some "https://front.example.com" |} |}.

(** OAuth2 with the OIDC settings filled in but switched off. *)
Definition env_keycloak_oidc_filled : Environment :=
  {| production := true; oauth := oauth_keycloak;
     OIDC := {| oidcServerEnabled := false;
                oidcBaseUrl := Some "https://id.example.com";
                oidcClientId := Some "web-app";
                oidcFrontUrl := Some "https://front.example.com" |} |}.

(** OAuth2 switched on with every setting unset. *)
Definition oauth_unset : OAuthSettings :=
  {| enabled := true; serverUrl := None; realm := None;
     authorizeUrl := None; tokenUrl := None; logoutUrl := None;
     redirectUri := None; scope := None; appId := None |}.

Definition env_oauth2_unset : Environment :=
  {| production := false; oauth := oauth_unset; OIDC := oidc_off |}.

(** OIDC switched on with every setting unset. *)
Definition oidc_unset : OIDCSettings :=
  {| oidcServerEnabled := true; oidcBaseUrl := None;
     oidcClientId := None; oidcFrontUrl := None |}.

Definition env_oidc_unset : Environment :=
  {| production := false; oauth := oauth_off; OIDC := oidc_unset |}.

(** ** The module as it runs: reading the globals

    In the browser the module takes no arguments: it reads the global
    [environment] object and [window.location.origin] as it goes, one read
    for each property access, in the order the source makes them.  Here the
    globals are a state that every step may read or replace; the functions
    below are the ones of the module written over that state. *)
Module Ambient.

(** [window.location], with more in it than the origin. *)
Record Location : Type := {
  origin : string;
  pathname : string;
  hash : string
}.

Record Window : Type := {
  location : Location
}.

(** The globals the module can reach. *)
Record Globals : Type := {
  environment : Environment;
  window : Window
}.

(** A step of JavaScript: a result and the globals it leaves. *)
Definition JS (A : Type) : Type := Globals -> A * Globals.

#[global] Instance JS_ret : MRet JS := fun A x g => (x, g).

#[global] Instance JS_bind : MBind JS :=
  fun A B f m g => let (x, g') := m g in f x g'.

(** A property access on the globals. *)
Definition read {A : Type} (get : Globals -> A) : JS A :=
  fun g => (get g, g).

(** [v || d], where [d] is evaluated only when [v] is falsy. *)
Definition or_else (v : setting) (d : JS string) : JS string :=
  match v with
  | Some s => if truthy v then mret s else d
  | None => d
  end.

Definition getActiveAuthMode : JS AuthMode.t :=
  oidcServerEnabled ← read (fun g => oidcServerEnabled (OIDC (environment g)));
  if (oidcServerEnabled : bool) then mret AuthMode.OIDC
  else
    enabled ← read (fun g => enabled (oauth (environment g)));
    if (enabled : bool) then mret AuthMode.OAuth2
    else mret AuthMode.Basic.

Definition getOIDCConfig : JS AuthConfig :=
  oidcFrontUrl ← read (fun g => oidcFrontUrl (OIDC (environment g)));
  frontUrl ← or_else oidcFrontUrl (read (fun g => origin (location (window g))));
  oidcBaseUrl ← read (fun g => oidcBaseUrl (OIDC (environment g)));
  oidcClientId ← read (fun g => oidcClientId (OIDC (environment g)));
  requireHttps ← read (fun g => production (environment g));
  production' ← read (fun g => production (environment g));
  mret (obj [ ("issuer", of_setting oidcBaseUrl);
              ("clientId", of_setting oidcClientId);
              ("redirectUri", VString (frontUrl +:+ "/callback"));
              ("postLogoutRedirectUri", VString (frontUrl +:+ "/#/login"));
              ("responseType", VString "code");
              ("scope", VString "openid profile email offline_access");
              ("oidc", VBoolean true);
              ("useSilentRefresh", VBoolean false);
              ("requireHttps", VBoolean requireHttps);
              ("showDebugInformation", VBoolean (negb production'));
              ("sessionChecksEnabled", VBoolean false);
              ("clearHashAfterLogin", VBoolean false) ]).

(** [override || (serverUrl ? `${serverUrl}/realms/${realm}/protocol/openid-connect/<endpoint>` : '')] *)
Definition endpoint (override serverUrl : setting) (realm endpoint : string) : JS string :=
  or_else override
    (mret (if truthy serverUrl
           then tmpl serverUrl +:+ "/realms/" +:+ realm
                  +:+ "/protocol/openid-connect/" +:+ endpoint
           else "")).

Definition getOAuth2Config : JS AuthConfig :=
  frontendUrl ← read (fun g => origin (location (window g)));
  serverUrl ← read (fun g => serverUrl (oauth (environment g)));
  realm' ← read (fun g => realm (oauth (environment g)));
  realm ← or_else realm' (mret "fineract");
  authorizeUrl' ← read (fun g => authorizeUrl (oauth (environment g)));
  authorizeUrl ← endpoint authorizeUrl' serverUrl realm "auth";
  tokenUrl' ← read (fun g => tokenUrl (oauth (environment g)));
  tokenUrl ← endpoint tokenUrl' serverUrl realm "token";
  logoutUrl' ← read (fun g => logoutUrl (oauth (environment g)));
  logoutUrl ← endpoint logoutUrl' serverUrl realm "logout";
  redirectUri' ← read (fun g => redirectUri (oauth (environment g)));
  redirectUri ← or_else redirectUri' (mret (frontendUrl +:+ "/#/callback"));
  scope' ← read (fun g => scope (oauth (environment g)));
  scope ← or_else scope' (mret "openid profile email");
  appId ← read (fun g => appId (oauth (environment g)));
  requireHttps ← read (fun g => production (environment g));
  production' ← read (fun g => production (environment g));
  mret (obj [ ("issuer", VString (tmpl serverUrl +:+ "/realms/" +:+ realm));
              ("loginUrl", VString authorizeUrl);
              ("tokenEndpoint", VString tokenUrl);
              ("redirectUri", VString redirectUri);
              ("postLogoutRedirectUri", VString (frontendUrl +:+ "/#/login"));
              ("clientId", of_setting appId);
              ("responseType", VString "code");
              ("scope", VString scope);
              ("useSilentRefresh", VBoolean false);
              ("oidc", VBoolean false);
              ("skipIssuerCheck", VBoolean true);
              ("strictDiscoveryDocumentValidation", VBoolean false);
              ("requireHttps", VBoolean requireHttps);
              ("showDebugInformation", VBoolean (negb production'));
              ("sessionChecksEnabled", VBoolean false);
              ("clearHashAfterLogin", VBoolean false) ]).

Definition getOAuthConfig : JS AuthConfig :=
  authMode ← getActiveAuthMode;
  match authMode with
  | AuthMode.OIDC => getOIDCConfig
  | AuthMode.OAuth2 => getOAuth2Config
  | _ => mret (obj [ ("clientId", VString "") ])
  end.

End Ambient.

(** Two pages of one deployment: the same environment and origin, at
    different places of the application. *)
Definition globals_login : Ambient.Globals :=
  {| Ambient.environment := env_keycloak;
     Ambient.window :=
       {| Ambient.location :=
            {| Ambient.origin := "https://host";
               Ambient.pathname := "/";
               Ambient.hash := "#/login" |} |} |}.

Definition globals_callback : Ambient.Globals :=
  {| Ambient.environment := env_keycloak;
     Ambient.window :=
       {| Ambient.location :=
            {| Ambient.origin := "https://host";
               Ambient.pathname := "/";
               Ambient.hash := "#/callback?code=abc" |} |} |}.

From Stdlib Require Import ZArith DecimalString.

(** ** JavaScript strings

    A JavaScript string is represented by its UTF-8 encoding, one [ascii]
    per byte; this is also how [fs.readFileSync(path, 'utf8')] and
    [fs.writeFileSync(path, data, 'utf8')] relate strings to file contents.
    Concatenation, prefix, suffix and substring tests on well-formed strings
    agree with the same tests on their encodings. *)
Module Js.

Definition code (c : ascii) : N := N_of_ascii c.

(** The line feed and the characters the scripts name. *)
Definition LF : ascii := ascii_of_N 10.
Definition CR : ascii := ascii_of_N 13.
Definition nl : string := String LF "".

(** [s.includes(sub)]: [sub] occurs in [s]. *)
Fixpoint includes (s sub : string) : bool :=
  String.prefix sub s ||
  match s with
  | EmptyString => false
  | String _ s' => includes s' sub
  end.

(** [s.startsWith(p)]. *)
Definition startsWith (s p : string) : bool := String.prefix p s.

(** [s.endsWith(p)]: some suffix of [s] is [p]. *)
Fixpoint endsWith (s p : string) : bool :=
  String.eqb s p ||
  match s with
  | EmptyString => false
  | String _ s' => endsWith s' p
  end.

(** [s.lastIndexOf(c)] for a one-character [c]; [-1] when [c] does not
    occur. *)
Fixpoint lastIndexOf (s : string) (c : ascii) : Z :=
  match s with
  | EmptyString => (-1)%Z
  | String a s' =>
      let i := lastIndexOf s' c in
      if (0 <=? i)%Z then (i + 1)%Z
      else if Ascii.eqb a c then 0%Z else (-1)%Z
  end.

(** [s.replace(/\\/g, '/')]: every backslash becomes a slash. *)
Fixpoint replace_backslashes (s : string) : string :=
  match s with
  | EmptyString => EmptyString
  | String a s' =>
      String (if Ascii.eqb a "\"%char then "/"%char else a) (replace_backslashes s')
  end.

(** White space in the sense of [trim] and of [\s]: the code points
    U+0009..U+000D, U+0020, U+00A0, U+1680, U+2000..U+200A, U+2028, U+2029,
    U+202F, U+205F, U+3000 and U+FEFF.  [skip_space s] is the rest of [s]
    after one such code point at its head, if there is one. *)
Definition skip_space (s : string) : option string :=
  match s with
  | EmptyString => None
  | String c1 s1 =>
      let n1 := code c1 in
      if ((9 <=? n1) && (n1 <=? 13) || (n1 =? 32))%N then Some s1
      else
        match s1 with
        | EmptyString => None
        | String c2 s2 =>
            let n2 := code c2 in
            if ((n1 =? 194) && (n2 =? 160))%N then Some s2
            else
              match s2 with
              | EmptyString => None
              | String c3 s3 =>
                  let n3 := code c3 in
                  if ((n1 =? 225) && (n2 =? 154) && (n3 =? 128)
                      || (n1 =? 226) && (n2 =? 128)
                         && ((128 <=? n3) && (n3 <=? 138)
                             || (n3 =? 168) || (n3 =? 169) || (n3 =? 175))
                      || (n1 =? 226) && (n2 =? 129) && (n3 =? 159)
                      || (n1 =? 227) && (n2 =? 128) && (n3 =? 128)
                      || (n1 =? 239) && (n2 =? 187) && (n3 =? 191))%N
                  then Some s3
                  else None
              end
        end
  end.

(** [s.trimStart()]; each step removes at least one byte, so the length of
    [s] is fuel enough. *)
Fixpoint trimStart_go (fuel : nat) (s : string) : string :=
  match fuel with
  | O => s
  | S fuel' =>
      match skip_space s with
      | Some rest => trimStart_go fuel' rest
      | None => s
      end
  end.

Definition trimStart (s : string) : string := trimStart_go (String.length s) s.

(** [s] consists of white space only. *)
Definition all_space (s : string) : bool := String.eqb (trimStart s) "".

(** [s.trimEnd()]: cut at the first position from which only white space
    follows. *)
Fixpoint trimEnd (s : string) : string :=
  match s with
  | EmptyString => EmptyString
  | String a s' => if all_space s then EmptyString else String a (trimEnd s')
  end.

(** [s.trim()]. *)
Definition trim (s : string) : string := trimEnd (trimStart s).

(** [s.replace(/\s+/g, ' ')]: every run of white space becomes one space. *)
Fixpoint collapse_spaces_go (fuel : nat) (s : string) : string :=
  match fuel with
  | O => s
  | S fuel' =>
      match skip_space s with
      | Some rest => String " " (collapse_spaces_go fuel' (trimStart rest))
      | None =>
          match s with
          | EmptyString => EmptyString
          | String a s' => String a (collapse_spaces_go fuel' s')
          end
      end
  end.

Definition collapse_spaces (s : string) : string :=
  collapse_spaces_go (String.length s) s.

(** [s.split(/\r?\n/)]; [cur] is the line read so far. *)
Fixpoint split_lines_go (s cur : string) : list string :=
  match s with
  | EmptyString => [cur]
  | String a s' =>
      if Ascii.eqb a LF then cur :: split_lines_go s' ""
      else
        match s' with
        | String b s'' =>
            if Ascii.eqb a CR && Ascii.eqb b LF
            then cur :: split_lines_go s'' ""
            else split_lines_go s' (cur +:+ String a "")
        | EmptyString => split_lines_go s' (cur +:+ String a "")
        end
  end.

Definition split_lines (s : string) : list string := split_lines_go s "".

(** [lines.join('\n')]. *)
Fixpoint join (sep : string) (l : list string) : string :=
  match l with
  | [] => ""
  | [x] => x
  | x :: l' => x +:+ sep +:+ join sep l'
  end.

(** ['='.repeat(n)]. *)
Fixpoint repeat (s : string) (n : nat) : string :=
  match n with
  | O => ""
  | S n' => s +:+ repeat s n'
  end.

(** [`${n}`] for a natural number. *)
Definition of_nat (n : nat) : string := NilEmpty.string_of_uint (Nat.to_uint n).

End Js.

(** ** The login component (src/app/login/login.component.ts)

    The component's own state and the methods that decide something:
    [displayTenantSelector], [allowServerSwitch], [updateLogo],
    [onLogoError] and the subscriber to the alert service installed by
    [ngOnInit].  The theming and settings services are not among the
    sources; what the component asks of them (the current tenant
    identifier) is an argument, and what it tells the router is recorded. *)

(** The declaration of [environment] is not among the sources: beside the
    authentication settings, these are the settings the login component
    reads, each typed by the way the component uses it. *)
Record LoginEnvironment : Type := {
  auth : Environment;
  displayTenantSelector : setting;
  allowServerSwitch : setting;
  tenantLogoUrl : setting
}.

(** [v === s] for a setting [v] and a string [s]. *)
Definition strict_eq (v : setting) (s : string) : bool :=
  match v with
  | Some x => String.eqb x s
  | None => false
  end.

Module LoginComponent.

(** A call [router.navigate(commands, { replaceUrl })]. *)
Inductive RouterCall : Type :=
  | navigate (commands : list string) (replaceUrl : bool).

(** The fields of the component, and the calls it has made on the router. *)
Record t : Type := {
  resetPassword : bool;
  twoFactorAuthenticationRequired : bool;
  logoPath : string;
  router : list RouterCall
}.

(** The field initialisers. *)
Definition initial : t :=
  {| resetPassword := false;
     twoFactorAuthenticationRequired := false;
     logoPath := "assets/images/default_home.png";
     router := [] |}.

Definition set_logoPath (path : string) (this : t) : t :=
  {| resetPassword := resetPassword this;
     twoFactorAuthenticationRequired := twoFactorAuthenticationRequired this;
     logoPath := path;
     router := router this |}.

Definition displayTenantSelector (environment : LoginEnvironment) : bool :=
  if enabled (oauth (auth environment)) then false
  else if strict_eq (displayTenantSelector environment) "false" then false else true.

Definition allowServerSwitch (environment : LoginEnvironment) : bool :=
  if strict_eq (allowServerSwitch environment) "false" then false else true.

(** [tenantIdentifier] is what [settingsService.tenantIdentifier] gives at
    the time of the call. *)
Definition updateLogo (environment : LoginEnvironment) (tenantIdentifier : setting)
    (this : t) : t :=
  let by_tenant :=
    let tenant := tenantIdentifier in
    match tenant with
    | Some name =>
        if truthy tenant && negb (String.eqb name "default")
        then set_logoPath ("assets/images/" +:+ name +:+ "_home.png") this
        else set_logoPath "assets/images/default_home.png" this
    | None => set_logoPath "assets/images/default_home.png" this
    end in
  match tenantLogoUrl environment with
  | Some url =>
      if truthy (Some url) && negb (String.eqb (Js.trim url) "")
      then set_logoPath url this
      else by_tenant
  | None => by_tenant
  end.

Definition onLogoError (this : t) : t :=
  set_logoPath "assets/images/default_home.png" this.

(** The subscriber to [alertService.alertEvent] of [ngOnInit], applied to
    an alert of type [alertType]. *)
Definition onAlertEvent (environment : LoginEnvironment) (tenantIdentifier : setting)
    (alertType : string) (this : t) : t :=
  if String.eqb alertType "Password Expired" then
    {| resetPassword := true;
       twoFactorAuthenticationRequired := false;
       logoPath := logoPath this;
       router := router this |}
  else if String.eqb alertType "Two Factor Authentication Required" then
    {| resetPassword := false;
       twoFactorAuthenticationRequired := true;
       logoPath := logoPath this;
       router := router this |}
  else if String.eqb alertType "Authentication Success" then
    {| resetPassword := false;
       twoFactorAuthenticationRequired := false;
       logoPath := logoPath this;
       router := (router this ++ [navigate ["/"] true])%list |}
  else if String.eqb alertType "Tenant Changed" then
    updateLogo environment tenantIdentifier this
  else this.

(** What can happen to the component once it is initialised: an alert
    arrives (with the tenant identifier current at that time), or the logo
    image fails to load. *)
Inductive event : Type :=
  | Alert (alertType : string) (tenantIdentifier : setting)
  | LogoError.

Definition react (environment : LoginEnvironment) (this : t) (e : event) : t :=
  match e with
  | Alert alertType tenantIdentifier =>
      onAlertEvent environment tenantIdentifier alertType this
  | LogoError => onLogoError this
  end.

(** The component after [ngOnInit] has set the logo and the events [es]
    have been handled in order. *)
Definition run (environment : LoginEnvironment) (tenantIdentifier : setting)
    (es : list event) : t :=
  fold_left (react environment) es (updateLogo environment tenantIdentifier initial).

End LoginComponent.

(** The two flags are not both set. *)
Definition exclusive (this : LoginComponent.t) : Prop :=
  LoginComponent.resetPassword this && LoginComponent.twoFactorAuthenticationRequired this = false.

(** Whether an event is the alert that authentication succeeded. *)
Definition is_success (e : LoginComponent.event) : bool :=
  match e with
  | LoginComponent.Alert alertType _ => String.eqb alertType "Authentication Success"
  | LoginComponent.LogoError => false
  end.

(** A login environment in OAuth2 mode. *)
Definition login_env_oauth2 : LoginEnvironment :=
  {| auth := env_keycloak; displayTenantSelector := Some "true";
     allowServerSwitch := None; tenantLogoUrl := None |}.

(** ** The button component (src/app/shared/m3-ui/m3-button) *)

Module M3ButtonComponent.

(** The variants the type [M3ButtonVariant] declares. *)
Definition M3ButtonVariant : list string :=
  [ "filled"; "outlined"; "elevated"; "text"; "tonal" ].

(** The getter [componentTag]; [variant] is an input and can be any string
    at run time. *)
Definition componentTag (variant : string) : string :=
  if String.eqb variant "filled" then "md-filled-button"
  else if String.eqb variant "outlined" then "md-outlined-button"
  else if String.eqb variant "elevated" then "md-elevated-button"
  else if String.eqb variant "text" then "md-text-button"
  else if String.eqb variant "tonal" then "md-filled-tonal-button"
  else "md-filled-button".

End M3ButtonComponent.

(** ** The licence-header scripts

    [scripts/add-file-headers.js] prepends the licence header to source
    files; its companion, the header check, tells whether a file starts
    with it.  Both run under Node: the file system and the console are the
    state they act on. *)

(** Library functions taken as given: [path.extname], [toLowerCase], and
    the message of the error [fs.readFileSync] throws for a path that does
    not exist. *)
Class Platform : Type := {
  path_extname : string -> string;
  toLowerCase : string -> string;
  enoent : string -> string
}.

Module Node.

Inductive Stream : Type :=
  | stdout
  | stderr.

(** How a call of [fs.writeFileSync] fails, when it does: the message of
    the error it throws, and what it has done to the file by then.  The
    call opens the file for writing, which empties it, and then writes the
    data: [written_before] is [None] when opening failed and the file is as
    it was, and [Some n] when the file was emptied and the first [n] bytes
    of the data were written before the error. *)
Record WriteFailure : Type := {
  message : string;
  written_before : option nat
}.

(** What a path that exists holds: [content] is the text
    [fs.readFileSync(path, 'utf8')] returns (the bytes of the file as they
    decode), or the message of the error it throws; [write_error] tells
    how [fs.writeFileSync] fails on this path, when it does. *)
Record Entry : Type := {
  content : string + string;
  write_error : option WriteFailure
}.

(** The world of the scripts.  A path is taken as the script spells it,
    and each path that exists names a file of its own: links and other
    spellings of the same file are not part of this model. *)
Record World : Type := {
  fs : gmap string Entry;
  console : list (Stream * string)
}.

(** Computations that act on the world. *)
Definition M (A : Type) : Type := World -> A * World.

#[global] Instance M_ret : MRet M := fun A x w => (x, w).

#[global] Instance M_bind : MBind M :=
  fun A B f m w => let (x, w') := m w in f x w'.

Definition print (out : Stream) (line : string) : M unit :=
  fun w => (tt, {| fs := fs w; console := (console w ++ [(out, line)])%list |}).

Definition console_log (line : string) : M unit := print stdout line.

Definition console_error (line : string) : M unit := print stderr line.

Definition existsSync (path : string) : M bool :=
  fun w => (bool_decide (is_Some (fs w !! path)), w).

(** [inl text] when the call returns, [inr message] when it throws. *)
Definition readFileSync `{Platform} (path : string) : M (string + string) :=
  fun w =>
    (match fs w !! path with
     | Some e => content e
     | None => inr (enoent path)
     end, w).

Definition writeFileSync (path data : string) : M (unit + string) :=
  fun w =>
    match fs w !! path with
    | Some {| write_error := Some failure |} =>
        (inr (message failure),
         match written_before failure with
         | None => w
         | Some n =>
             {| fs := <[path := {| content := inl (String.substring 0 n data);
                                   write_error := Some failure |}]> (fs w);
                console := console w |}
         end)
    | _ =>
        (inl tt,
         {| fs := <[path := {| content := inl data; write_error := None |}]> (fs w);
            console := console w |})
    end.

End Node.

Import Node.

(** What the two scripts share, word for word. *)
Module Headers.

Definition FILE_EXTENSIONS_code : list string := [ ".ts"; ".js"; ".scss"; ".css" ].

Definition FILE_EXTENSIONS_html : list string := [ ".html" ].

Definition EXCLUDE_PATTERNS : list string :=
  [ "node_modules"; "dist"; "coverage"; ".angular"; "e2e"; "cypress";
    "playwright"; ".husky"; "setup-jest.ts"; "jest.config.ts";
    "cypress.config.ts"; "playwright.config.ts"; "tailwind.config.js";
    "proxy.conf.js"; "proxy.localhost.conf.js"; "version.js";
    "environment.ts"; "environment.prod.ts"; "polyfills.ts"; "typings.d.ts";
    "global.d.ts"; ".spec.ts"; ".spec.js"; "tsconfig" ].

(** [array.includes(x)] on an array of strings. *)
Definition array_includes (array : list string) (x : string) : bool :=
  existsb (String.eqb x) array.

Definition shouldExclude (filePath : string) : bool :=
  let normalizedPath := Js.replace_backslashes filePath in
  existsb
    (fun pattern =>
       if Js.startsWith pattern "." && (0 <? Js.lastIndexOf pattern ".")%Z
       then Js.endsWith normalizedPath pattern
       else Js.includes normalizedPath pattern)
    EXCLUDE_PATTERNS.

End Headers.

(** *** scripts/add-file-headers.js *)
Module AddHeaders.

Import Headers.

Inductive HeaderType : Type :=
  | code
  | html.

Definition HEADERS (headerType : HeaderType) : string :=
  match headerType with
  | code =>
      "/**" +:+ Js.nl +:+
      " * Copyright since 2025 Mifos Initiative" +:+ Js.nl +:+
      " *" +:+ Js.nl +:+
      " * This Source Code Form is subject to the terms of the Mozilla Public" +:+ Js.nl +:+
      " * License, v. 2.0. If a copy of the MPL was not distributed with this" +:+ Js.nl +:+
      " * file, You can obtain one at http://mozilla.org/MPL/2.0/." +:+ Js.nl +:+
      " */" +:+ Js.nl +:+
      Js.nl
  | html =>
      "<!--" +:+ Js.nl +:+
      "  Copyright since 2025 Mifos Initiative" +:+ Js.nl +:+
      Js.nl +:+
      "  This Source Code Form is subject to the terms of the Mozilla Public" +:+ Js.nl +:+
      "  License, v. 2.0. If a copy of the MPL was not distributed with this" +:+ Js.nl +:+
      "  file, You can obtain one at http://mozilla.org/MPL/2.0/." +:+ Js.nl +:+
      "-->" +:+ Js.nl +:+
      Js.nl
  end.

Definition getHeaderType `{Platform} (filePath : string) : option HeaderType :=
  let ext := toLowerCase (path_extname filePath) in
  if array_includes FILE_EXTENSIONS_html ext then Some html
  else if array_includes FILE_EXTENSIONS_code ext then Some code
  else None.

Definition hasHeader (content : string) (headerType : HeaderType) : bool :=
  match headerType with
  | code =>
      Js.includes content "Copyright since 2025 Mifos Initiative"
      && Js.includes content "Mozilla Public License"
  | html =>
      Js.includes content "Copyright since 2025 Mifos Initiative"
      && Js.includes content "Mozilla Public License"
  end.

Definition addHeaderToFile `{Platform} (filePath : string) (dryRun : bool) : M bool :=
  if shouldExclude filePath then
    console_log ("⏭️  Skipping " +:+ filePath +:+ " (excluded)");;
    mret false
  else
    match getHeaderType filePath with
    | None =>
        console_log ("⏭️  Skipping " +:+ filePath +:+ " (unsupported file type)");;
        mret false
    | Some headerType =>
        r ← readFileSync filePath;
        match r with
        | inr message =>
            console_error ("❌ Error reading " +:+ filePath +:+ ": " +:+ message);;
            mret false
        | inl content =>
            if hasHeader content headerType then
              console_log ("✓  " +:+ filePath +:+ " (already has header)");;
              mret false
            else if Nat.eqb (String.length (Js.trim content)) 0 then
              console_log ("⏭️  Skipping " +:+ filePath +:+ " (empty file)");;
              mret false
            else
              let header := HEADERS headerType in
              let newContent := header +:+ content in
              if dryRun then
                console_log ("🔍 Would add header to: " +:+ filePath);;
                mret true
              else
                r ← writeFileSync filePath newContent;
                match r with
                | inl _ =>
                    console_log ("✅ Added header to: " +:+ filePath);;
                    mret true
                | inr message =>
                    console_error
                      ("❌ Error writing " +:+ filePath +:+ ": " +:+ message);;
                    mret false
                end
        end
    end.

(** The loop [files.forEach(...)] of [main], with its two counters. *)
Fixpoint main_forEach `{Platform} (files : list string) (dryRun : bool)
    (modifiedCount skippedCount : nat) : M (nat * nat) :=
  match files with
  | [] => mret (modifiedCount, skippedCount)
  | filePath :: files' =>
      found ← existsSync filePath;
      if negb found then
        console_error ("❌ File not found: " +:+ filePath);;
        main_forEach files' dryRun modifiedCount (S skippedCount)
      else
        modified ← addHeaderToFile filePath dryRun;
        if (modified : bool)
        then main_forEach files' dryRun (S modifiedCount) skippedCount
        else main_forEach files' dryRun modifiedCount (S skippedCount)
  end.

(** [args] is [process.argv.slice(2)]; the result is the code given to
    [process.exit], if it is called. *)
Definition main `{Platform} (args : list string) : M (option Z) :=
  let dryRun := array_includes args "--dry-run" || array_includes args "-d" in
  let files :=
    List.filter (fun arg => negb (Js.startsWith arg "--") && negb (Js.startsWith arg "-"))
      args in
  if Nat.eqb (length files) 0 then
    console_log "Usage: node add-file-headers.js [options] <file1> <file2> ...";;
    console_log (Js.nl +:+ "Options:");;
    console_log "  --dry-run, -d    Show what would be done without making changes";;
    console_log (Js.nl +:+ "Example:");;
    console_log "  node add-file-headers.js --dry-run src/app/app.component.ts";;
    console_log "  node add-file-headers.js src/app/**/*.ts";;
    mret (Some 0%Z)
  else
    (if dryRun
     then console_log ("🔍 DRY RUN MODE - No files will be modified" +:+ Js.nl)
     else mret tt);;
    counts ← main_forEach files dryRun 0 0;
    let modifiedCount := fst counts in
    let skippedCount := snd counts in
    console_log (Js.nl +:+ Js.repeat "=" 50);;
    console_log ("Summary: " +:+ Js.of_nat modifiedCount +:+ " file(s) "
                 +:+ (if dryRun then "would be" else "") +:+ " modified, "
                 +:+ Js.of_nat skippedCount +:+ " skipped");;
    (if dryRun && Nat.ltb 0 modifiedCount
     then console_log (Js.nl +:+ "💡 Run without --dry-run to apply changes")
     else mret tt);;
    mret None.

End AddHeaders.

(** *** The header check *)
Module CheckHeaders.

Import Headers.

Definition HEADERS_mpl : list string :=
  [ "/**";
    " * Copyright since 2025 Mifos Initiative";
    " *";
    " * This Source Code Form is subject to the terms of the Mozilla Public";
    " * License, v. 2.0. If a copy of the MPL was not distributed with this";
    " * file, You can obtain one at http://mozilla.org/MPL/2.0/.";
    " */" ].

Definition HEADERS_html : list string :=
  [ "<!--";
    "  Copyright since 2025 Mifos Initiative";
    "";
    "  This Source Code Form is subject to the terms of the Mozilla Public";
    "  License, v. 2.0. If a copy of the MPL was not distributed with this";
    "  file, You can obtain one at http://mozilla.org/MPL/2.0/.";
    "-->" ].

Definition getExpectedHeader `{Platform} (filePath : string) : option (list string) :=
  let ext := toLowerCase (path_extname filePath) in
  if array_includes FILE_EXTENSIONS_html ext then Some HEADERS_html
  else if array_includes FILE_EXTENSIONS_code ext then Some HEADERS_mpl
  else None.

Definition normalizeWhitespace (str : string) : string :=
  Js.collapse_spaces (Js.trim str).

(** The line the check starts at: after a [#!] line, and after one blank
    line that follows it. *)
Definition startLine (lines : list string) : nat :=
  match lines !! 0 with
  | Some (String a l0) =>
      if Js.startsWith (String a l0) "#!" then
        match lines !! 1 with
        | Some l1 => if String.eqb (Js.trim l1) "" then 2 else 1
        | None => 1
        end
      else 0
  | _ => 0
  end.

(** The loop that compares the header lines; the lines it reads exist, by
    the length test that comes before it. *)
Definition compare_lines (lines expectedHeader : list string) (startLine : nat) : bool :=
  forallb
    (fun i =>
       let actualLine := normalizeWhitespace (nth (startLine + i) lines "") in
       let expectedLine := normalizeWhitespace (nth i expectedHeader "") in
       String.eqb actualLine expectedLine)
    (seq 0 (length expectedHeader)).

Definition hasValidHeader `{Platform} (filePath : string) : M bool :=
  if shouldExclude filePath then mret true
  else
    match getExpectedHeader filePath with
    | None => mret true
    | Some expectedHeader =>
        r ← readFileSync filePath;
        match r with
        | inr message =>
            console_error ("Error reading file " +:+ filePath +:+ ": " +:+ message);;
            mret false
        | inl content =>
            if Nat.eqb (String.length (Js.trim content)) 0 then mret true
            else
              let lines := Js.split_lines content in
              let headerLineCount := length expectedHeader in
              let startLine := startLine lines in
              if Nat.ltb (length lines) (startLine + headerLineCount) then mret false
              else mret (compare_lines lines expectedHeader startLine)
        end
    end.

Definition formatExpectedHeader (header : list string) : string :=
  Js.nl +:+ Js.join Js.nl header +:+ Js.nl.

(** The first loop of [main]: the files that exist and fail the check. *)
Fixpoint main_collect `{Platform} (args : list string) (filesWithoutHeaders : list string)
    : M (list string) :=
  match args with
  | [] => mret filesWithoutHeaders
  | filePath :: args' =>
      found ← existsSync filePath;
      if negb found then
        console_error ("File not found: " +:+ filePath);;
        main_collect args' filesWithoutHeaders
      else
        valid ← hasValidHeader filePath;
        if (valid : bool)
        then main_collect args' filesWithoutHeaders
        else main_collect args' (filesWithoutHeaders ++ [filePath])%list
  end.

(** The second loop of [main]: the report. *)
Fixpoint main_report `{Platform} (filesWithoutHeaders : list string) : M unit :=
  match filesWithoutHeaders with
  | [] => mret tt
  | file :: files' =>
      console_error ("  - " +:+ file);;
      match getExpectedHeader file with
      | Some expectedHeader =>
          console_error (Js.nl +:+ "    Expected header:"
                         +:+ formatExpectedHeader expectedHeader)
      | None => mret tt
      end;;
      main_report files'
  end.

(** [args] is [process.argv.slice(2)]; the result is the exit code. *)
Definition main `{Platform} (args : list string) : M Z :=
  if Nat.eqb (length args) 0 then
    console_error "Usage: node check-file-headers.js <file1> <file2> ...";;
    mret 1%Z
  else
    filesWithoutHeaders ← main_collect args [];
    if Nat.ltb 0 (length filesWithoutHeaders) then
      console_error (Js.nl +:+ "âŒ Header validation failed!" +:+ Js.nl);;
      console_error
        ("The following files are missing the required MPL-2.0 license header:"
         +:+ Js.nl);;
      main_report filesWithoutHeaders;;
      console_error
        (Js.nl +:+ "ðŸ’¡ Please add the MPL-2.0 license header to these files.");;
      console_error ("   Refer to existing files for the correct format." +:+ Js.nl);;
      mret 1%Z
    else
      console_log "âœ… All files have valid headers";;
      mret 0%Z.

End CheckHeaders.

(** *** Vocabulary for the properties of the scripts *)

(** The patterns [shouldExclude] looks for at the end of the path; the
    others it looks for anywhere in it. *)
Definition suffix_patterns : list string := [ ".spec.ts"; ".spec.js" ].

(** A string with neither slash nor backslash in it. *)
Fixpoint plain (s : string) : bool :=
  match s with
  | EmptyString => true
  | String a s' => negb (Ascii.eqb a "/") && negb (Ascii.eqb a "\") && plain s'
  end.

(** A computation that leaves the file system as it found it. *)
Definition keeps_fs {A : Type} (m : M A) : Prop :=
  forall w : World, fs (snd (m w)) = fs w.

(** A computation that leaves the whole world as it found it. *)
Definition keeps_world {A : Type} (m : M A) : Prop :=
  forall w : World, snd (m w) = w.

(** The script finds something to do at [filePath]: the path is not
    excluded, its extension calls for the header [headerType], it holds
    the text [content], and that text is neither blank nor taken to have a
    header already. *)
Definition eligible `{Platform} (filePath : string) (headerType : AddHeaders.HeaderType)
    (content : string) (w : World) : Prop :=
  Headers.shouldExclude filePath = false /\
  AddHeaders.getHeaderType filePath = Some headerType /\
  (exists e : Entry, fs w !! filePath = Some e /\ Node.content e = inl content) /\
  AddHeaders.hasHeader content headerType = false /\
  Js.trim content <> "".

(** Writing to [filePath] does not fail. *)
Definition writable (filePath : string) (w : World) : Prop :=
  forall e : Entry, fs w !! filePath = Some e -> write_error e = None.

(** The entry a successful write leaves behind. *)
Definition written (data : string) : Entry :=
  {| content := inl data; write_error := None |}.

(** The header of the check that goes with a header type of
    [add-file-headers.js]. *)
Definition expected_lines (headerType : AddHeaders.HeaderType) : list string :=
  match headerType with
  | AddHeaders.code => CheckHeaders.HEADERS_mpl
  | AddHeaders.html => CheckHeaders.HEADERS_html
  end.

(** The files among [args] that exist and fail the check, in the world [w]. *)
Definition failing `{Platform} (args : list string) (w : World) : list string :=
  List.filter
    (fun filePath =>
       bool_decide (is_Some (fs w !! filePath))
       && negb (fst (CheckHeaders.hasValidHeader filePath w)))
    args.


(** A string with no line break in it. *)
Fixpoint one_line (s : string) : bool :=
  match s with
  | EmptyString => true
  | String a s' => negb (Ascii.eqb a Js.LF) && negb (Ascii.eqb a Js.CR) && one_line s'
  end.

(** *** A platform and a file system to run the scripts on *)

(** A stand-in for [path.extname]: what follows the last dot of the path,
    the dot included. *)
Fixpoint sample_extname (path : string) : string :=
  match path with
  | EmptyString => EmptyString
  | String a s =>
      match sample_extname s with
      | EmptyString => if Ascii.eqb a "." then String a s else EmptyString
      | ext => ext
      end
  end.

(** A stand-in for [toLowerCase]: the letters A to Z. *)
Fixpoint sample_toLowerCase (s : string) : string :=
  match s with
  | EmptyString => EmptyString
  | String a s' =>
      let n := Js.code a in
      String (if ((65 <=? n) && (n <=? 90))%N then ascii_of_N (n + 32) else a)
        (sample_toLowerCase s')
  end.

Definition sample_platform : Platform :=
  {| path_extname := sample_extname;
     toLowerCase := sample_toLowerCase;
     enoent := fun path => "ENOENT: no such file or directory, open '" +:+ path +:+ "'" |}.

Definition sample_text : string :=
  "export class AppComponent {}" +:+ Js.nl.

(** The same file on a disk that fills up three bytes into the write. *)
Definition sample_world_full : World :=
  {| fs := {[ "src/app/app.component.ts"
                := {| content := inl ("export class AppComponent {}" +:+ Js.nl);
                      write_error :=
                        Some {| message := "ENOSPC: no space left on device, write";
                                written_before := Some 3 |} |} ]};
     console := [] |}.

Definition sample_world : World :=
  {| fs := {[ "src/app/app.component.ts" := written sample_text ]};
     console := [] |}.

(** The same file once [add-file-headers.js] has been at it. *)
Definition sample_world_added : World :=
  {| fs := {[ "src/app/app.component.ts"
                := written (AddHeaders.HEADERS AddHeaders.code +:+ sample_text) ]};
     console := [] |}.

(** A script of its own kind: a [#!] line, a blank line, the header. *)
Definition sample_script_world : World :=
  {| fs := {[ "scripts/tool.js"
                := written ("#!" +:+ "/usr/bin/env node" +:+ Js.nl +:+ Js.nl
                            +:+ Js.join Js.nl (expected_lines AddHeaders.code)
                            +:+ Js.nl +:+ "main();") ]};
     console := [] |}.

(** The header with Windows line ends. *)
Definition sample_crlf_world : World :=
  {| fs := {[ "src/main.ts"
                := written (Js.join (String Js.CR Js.nl) (expected_lines AddHeaders.code)
                            +:+ String Js.CR Js.nl +:+ "export {};") ]};
     console := [] |}.

(** ** Basic facts about the operators *)

Lemma truthy_provided (v : setting) : truthy v = true <-> provided v.
Proof.
  split.
  - destruct v as [[|a s]|]; simpl; try discriminate.
    intros _. exists (String a s). split; [reflexivity | discriminate].
  - intros (s & -> & Hs). destruct s; [contradiction | reflexivity].
Qed.

Lemma truthy_blank (v : setting) : truthy v = false <-> blank v.
Proof.
  split.
  - destruct v as [[|a s]|]; simpl; try discriminate.
    + intros _. right. reflexivity.
    + intros _. left. reflexivity.
  - intros [-> | ->]; reflexivity.
Qed.

Lemma js_or_or_default (v : setting) (d : string) : js_or v d = or_default v d.
Proof. destruct v as [[|a s]|]; reflexivity. Qed.

Lemma or_default_provided (v : setting) (s d : string) :
  v = Some s -> s <> "" -> or_default v d = s.
Proof. intros -> Hs. destruct s; [contradiction | reflexivity]. Qed.

Lemma or_default_blank (v : setting) (d : string) : blank v -> or_default v d = d.
Proof. intros [-> | ->]; reflexivity. Qed.

(** The three steps of [resolve_endpoint], one by one. *)
Lemma resolve_endpoint_override (override server realm : setting) (endpoint u : string) :
  override = Some u -> u <> "" ->
  resolve_endpoint override server realm endpoint = u.
Proof. intros -> Hu. destruct u; [contradiction | reflexivity]. Qed.

Lemma resolve_endpoint_convention (override server realm : setting) (endpoint s : string) :
  blank override -> server = Some s -> s <> "" ->
  resolve_endpoint override server realm endpoint
  = s +:+ "/realms/" +:+ or_default realm "fineract"
      +:+ "/protocol/openid-connect/" +:+ endpoint.
Proof.
  intros [-> | ->] -> Hs; (destruct s; [contradiction | reflexivity]).
Qed.

Lemma resolve_endpoint_empty (override server realm : setting) (endpoint : string) :
  blank override -> blank server ->
  resolve_endpoint override server realm endpoint = "".
Proof. intros [-> | ->] [-> | ->]; reflexivity. Qed.

Lemma js_or_blank (v : setting) (d : string) : blank v -> js_or v d = d.
Proof. intros [-> | ->]; reflexivity. Qed.

Lemma append_not_empty_r (s t : string) : t <> "" -> s +:+ t <> "".
Proof. intros Ht. destruct s; simpl; [assumption | discriminate]. Qed.

(** ** How [getOAuthConfig] dispatches *)

Lemma mode_OIDC_iff (env : Environment) :
  getActiveAuthMode env = AuthMode.OIDC <-> oidcServerEnabled (OIDC env) = true.
Proof.
  unfold getActiveAuthMode.
  destruct (oidcServerEnabled (OIDC env)), (enabled (oauth env));
    split; intros H; try reflexivity; discriminate.
Qed.

Lemma mode_OAuth2_iff (env : Environment) :
  getActiveAuthMode env = AuthMode.OAuth2 <->
  oidcServerEnabled (OIDC env) = false /\ enabled (oauth env) = true.
Proof.
  unfold getActiveAuthMode.
  destruct (oidcServerEnabled (OIDC env)), (enabled (oauth env));
    split; try discriminate; try (intros [? ?]; discriminate); auto.
Qed.

Lemma mode_Basic_iff (env : Environment) :
  getActiveAuthMode env = AuthMode.Basic <->
  oidcServerEnabled (OIDC env) = false /\ enabled (oauth env) = false.
Proof.
  unfold getActiveAuthMode.
  destruct (oidcServerEnabled (OIDC env)), (enabled (oauth env));
    split; try discriminate; try (intros [? ?]; discriminate); auto.
Qed.

Lemma getOAuthConfig_in_OIDC (env : Environment) (origin : string) :
  getActiveAuthMode env = AuthMode.OIDC ->
  getOAuthConfig env origin = getOIDCConfig env origin.
Proof. intros H. unfold getOAuthConfig. rewrite H. reflexivity. Qed.

Lemma getOAuthConfig_in_OAuth2 (env : Environment) (origin : string) :
  getActiveAuthMode env = AuthMode.OAuth2 ->
  getOAuthConfig env origin = getOAuth2Config env origin.
Proof. intros H. unfold getOAuthConfig. rewrite H. reflexivity. Qed.

Lemma getOAuthConfig_in_Basic (env : Environment) (origin : string) :
  getActiveAuthMode env = AuthMode.Basic ->
  getOAuthConfig env origin = obj [ ("clientId", VString "") ].
Proof. intros H. unfold getOAuthConfig. rewrite H. reflexivity. Qed.

(** The local realm is the configured one, or ['fineract']. *)
Lemma Const_realm_default (env : Environment) :
  Const.realm env = or_default (realm (oauth env)) "fineract".
Proof. apply js_or_or_default. Qed.

(** Each endpoint constant follows the three-step fallback. *)
Lemma endpoint_fallback (env : Environment) (override : setting) (endpoint : string) :
  js_or override (Const.derived env endpoint)
  = resolve_endpoint override (serverUrl (oauth env)) (realm (oauth env)) endpoint.
Proof.
  unfold Const.derived, resolve_endpoint, keycloak.
  rewrite Const_realm_default.
  destruct override as [[|a u]|]; simpl;
    destruct (serverUrl (oauth env)) as [[|b s]|]; reflexivity.
Qed.

(** The logout URL is computed but is not a property of the result. *)
Remark getOAuth2Config_no_logoutUrl (env : Environment) (origin : string) :
  getOAuth2Config env origin !! "logoutUrl" = None.
Proof. reflexivity. Qed.

Ltac in_mode H :=
  first [ rewrite (getOAuthConfig_in_OAuth2 _ _ H)
        | rewrite (getOAuthConfig_in_OIDC _ _ H)
        | rewrite (getOAuthConfig_in_Basic _ _ H) ].

(** ** Mode resolution *)

(** C1. The mode is resolved by first match: OIDC whenever
    [oidcServerEnabled] is on, whatever [oauth.enabled] is; otherwise OAuth2
    when [oauth.enabled] is on; otherwise Basic. *)
Theorem getActiveAuthMode_priority (env : Environment) :
  (oidcServerEnabled (OIDC env) = true ->
     getActiveAuthMode env = AuthMode.OIDC) /\
  (oidcServerEnabled (OIDC env) = false -> enabled (oauth env) = true ->
     getActiveAuthMode env = AuthMode.OAuth2) /\
  (oidcServerEnabled (OIDC env) = false -> enabled (oauth env) = false ->
     getActiveAuthMode env = AuthMode.Basic).
Proof.
  unfold getActiveAuthMode.
  split; [| split].
  - intros ->. reflexivity.
  - intros -> ->. reflexivity.
  - intros -> ->. reflexivity.
Qed.

Lemma getActiveAuthMode_priority_witness :
  (oidcServerEnabled (OIDC env_both) = true /\ enabled (oauth env_both) = true /\
     getActiveAuthMode env_both = AuthMode.OIDC) /\
  (oidcServerEnabled (OIDC env_keycloak) = false /\ enabled (oauth env_keycloak) = true /\
     getActiveAuthMode env_keycloak = AuthMode.OAuth2) /\
  (oidcServerEnabled (OIDC env_basic) = false /\ enabled (oauth env_basic) = false /\
     getActiveAuthMode env_basic = AuthMode.Basic).
Proof.
  split; [| split].
  - split; [reflexivity | split; [reflexivity |]].
    exact (proj1 (getActiveAuthMode_priority env_both) eq_refl).
  - split; [reflexivity | split; [reflexivity |]].
    exact (proj1 (proj2 (getActiveAuthMode_priority env_keycloak)) eq_refl eq_refl).
  - split; [reflexivity | split; [reflexivity |]].
    exact (proj2 (proj2 (getActiveAuthMode_priority env_basic)) eq_refl eq_refl).
Defined.

(** ** Basic mode *)

(** C2. With both switches off the result is exactly [{clientId: ''}]: the
    mode is Basic, [clientId] is the empty string and no other property is
    set. *)
Theorem getOAuthConfig_basic_sentinel (env : Environment) (origin : string) :
  oidcServerEnabled (OIDC env) = false ->
  enabled (oauth env) = false ->
  getActiveAuthMode env = AuthMode.Basic /\
  getOAuthConfig env origin = {[ "clientId" := VString "" ]} /\
  getOAuthConfig env origin !! "clientId" = Some (VString "") /\
  (forall k : string, k <> "clientId" -> getOAuthConfig env origin !! k = None).
Proof.
  intros Hoidc Hoauth.
  assert (Hm : getActiveAuthMode env = AuthMode.Basic)
    by (apply mode_Basic_iff; split; assumption).
  split; [exact Hm |].
  in_mode Hm.
  split; [reflexivity |].
  split; [reflexivity |].
  intros k Hk. unfold obj. simpl.
  rewrite lookup_insert_ne by congruence.
  apply lookup_empty.
Qed.

Lemma getOAuthConfig_basic_sentinel_witness :
  oidcServerEnabled (OIDC env_basic) = false /\
  enabled (oauth env_basic) = false /\
  getOAuthConfig env_basic "https://host" = {[ "clientId" := VString "" ]}.
Proof.
  split; [reflexivity |]. split; [reflexivity |].
  exact (proj1 (proj2 (getOAuthConfig_basic_sentinel env_basic "https://host"
                         eq_refl eq_refl))).
Defined.

(** ** OAuth2 mode *)

(** C3. In OAuth2 mode the issuer is the string
    [`${serverUrl}/realms/${realm}`], the realm defaulting to ['fineract']:
    the server URL as it is set, followed by [/realms/] and the realm.  An
    empty server URL gives the malformed ['/realms/' + realm]
    (['/realms/fineract'] under the default realm), an unset one gives
    ['undefined/realms/' + realm]; the issuer is never the empty string. *)
Theorem getOAuthConfig_oauth2_issuer (env : Environment) (origin : string) :
  getActiveAuthMode env = AuthMode.OAuth2 ->
  (forall server : string,
     serverUrl (oauth env) = Some server ->
     getOAuthConfig env origin !! "issuer"
       = Some (VString (server +:+ "/realms/"
                          +:+ or_default (realm (oauth env)) "fineract"))) /\
  (serverUrl (oauth env) = None ->
     getOAuthConfig env origin !! "issuer"
       = Some (VString ("undefined/realms/"
                          +:+ or_default (realm (oauth env)) "fineract"))) /\
  (serverUrl (oauth env) = Some "" -> blank (realm (oauth env)) ->
     getOAuthConfig env origin !! "issuer" = Some (VString "/realms/fineract")) /\
  getOAuthConfig env origin !! "issuer" <> Some (VString "").
Proof.
  intros Hm. in_mode Hm.
  assert (Hissuer : getOAuth2Config env origin !! "issuer"
            = Some (VString (tmpl (serverUrl (oauth env)) +:+ "/realms/"
                               +:+ or_default (realm (oauth env)) "fineract"))).
  { unfold getOAuth2Config. rewrite Const_realm_default. reflexivity. }
  rewrite Hissuer.
  split; [| split; [| split]].
  - intros server ->. reflexivity.
  - intros ->. reflexivity.
  - intros -> [-> | ->]; reflexivity.
  - intros Heq. injection Heq as Heq. revert Heq.
    apply append_not_empty_r. discriminate.
Qed.

Lemma getOAuthConfig_oauth2_issuer_witness :
  (getActiveAuthMode env_keycloak = AuthMode.OAuth2 /\
   serverUrl (oauth env_keycloak) = Some "https://auth.example.com" /\
   getOAuthConfig env_keycloak "https://host" !! "issuer"
     = Some (VString "https://auth.example.com/realms/fineract")) /\
  (getActiveAuthMode env_overridden = AuthMode.OAuth2 /\
   getOAuthConfig env_overridden "https://host" !! "issuer"
     = Some (VString "https://auth.example.com/realms/mifos")) /\
  (getActiveAuthMode env_oauth2_bare = AuthMode.OAuth2 /\
   serverUrl (oauth env_oauth2_bare) = Some "" /\
   getOAuthConfig env_oauth2_bare "https://host" !! "issuer"
     = Some (VString "/realms/fineract")) /\
  (getActiveAuthMode env_oauth2_unset = AuthMode.OAuth2 /\
   serverUrl (oauth env_oauth2_unset) = None /\
   getOAuthConfig env_oauth2_unset "https://host" !! "issuer"
     = Some (VString "undefined/realms/fineract")).
Proof.
  split; [| split; [| split]].
  - split; [reflexivity |]. split; [reflexivity |].
    exact (proj1 (getOAuthConfig_oauth2_issuer env_keycloak "https://host" eq_refl)
             "https://auth.example.com" eq_refl).
  - split; [reflexivity |].
    exact (proj1 (getOAuthConfig_oauth2_issuer env_overridden "https://host" eq_refl)
             "https://auth.example.com" eq_refl).
  - split; [reflexivity |]. split; [reflexivity |].
    exact (proj1 (proj2 (proj2
             (getOAuthConfig_oauth2_issuer env_oauth2_bare "https://host" eq_refl)))
           eq_refl (or_introl eq_refl)).
  - split; [reflexivity |]. split; [reflexivity |].
    exact (proj1 (proj2
             (getOAuthConfig_oauth2_issuer env_oauth2_unset "https://host" eq_refl))
           eq_refl).
Defined.

(** C4. In OAuth2 mode the authorize, token and logout URLs each follow the
    three-step fallback [resolve_endpoint]: the override if provided, else
    the Keycloak convention under a non-empty server URL (realm defaulting
    to ['fineract']), else the empty string.  The first two are the
    [loginUrl] and [tokenEndpoint] of the result. *)
Theorem getOAuthConfig_oauth2_endpoints (env : Environment) (origin : string) :
  getActiveAuthMode env = AuthMode.OAuth2 ->
  getOAuthConfig env origin !! "loginUrl"
    = Some (VString (resolve_endpoint (authorizeUrl (oauth env))
                       (serverUrl (oauth env)) (realm (oauth env)) "auth")) /\
  getOAuthConfig env origin !! "tokenEndpoint"
    = Some (VString (resolve_endpoint (tokenUrl (oauth env))
                       (serverUrl (oauth env)) (realm (oauth env)) "token")) /\
  Const.logoutUrl env
    = resolve_endpoint (logoutUrl (oauth env))
        (serverUrl (oauth env)) (realm (oauth env)) "logout".
Proof.
  intros Hm. in_mode Hm.
  unfold getOAuth2Config, Const.authorizeUrl, Const.tokenUrl, Const.logoutUrl.
  rewrite !endpoint_fallback.
  split; [reflexivity | split; reflexivity].
Qed.

Lemma getOAuthConfig_oauth2_endpoints_witness :
  getActiveAuthMode env_keycloak = AuthMode.OAuth2 /\
  getOAuthConfig env_keycloak "https://host" !! "loginUrl"
    = Some (VString "https://auth.example.com/realms/fineract/protocol/openid-connect/auth") /\
  getOAuthConfig env_keycloak "https://host" !! "tokenEndpoint"
    = Some (VString "https://auth.example.com/realms/fineract/protocol/openid-connect/token") /\
  Const.logoutUrl env_keycloak
    = "https://auth.example.com/realms/fineract/protocol/openid-connect/logout".
Proof.
  split; [reflexivity |].
  exact (getOAuthConfig_oauth2_endpoints env_keycloak "https://host" eq_refl).
Defined.

(** C7. In OAuth2 mode the redirect URI is the configured one if provided,
    else [`${origin}/#/callback`]; the scope is the configured one if
    provided, else ['openid profile email']; and [oidc] is false,
    [responseType] is ['code'], [skipIssuerCheck] is true and
    [strictDiscoveryDocumentValidation] is false. *)
Theorem getOAuthConfig_oauth2_defaults (env : Environment) (origin : string) :
  getActiveAuthMode env = AuthMode.OAuth2 ->
  getOAuthConfig env origin !! "redirectUri"
    = Some (VString (or_default (redirectUri (oauth env)) (origin +:+ "/#/callback"))) /\
  getOAuthConfig env origin !! "scope"
    = Some (VString (or_default (scope (oauth env)) "openid profile email")) /\
  getOAuthConfig env origin !! "oidc" = Some (VBoolean false) /\
  getOAuthConfig env origin !! "responseType" = Some (VString "code") /\
  getOAuthConfig env origin !! "skipIssuerCheck" = Some (VBoolean true) /\
  getOAuthConfig env origin !! "strictDiscoveryDocumentValidation"
    = Some (VBoolean false).
Proof.
  intros Hm. in_mode Hm.
  unfold getOAuth2Config, Const.redirectUri, Const.scope.
  rewrite !js_or_or_default.
  split; [reflexivity |]. split; [reflexivity |]. split; [reflexivity |].
  split; [reflexivity |]. split; reflexivity.
Qed.

Lemma getOAuthConfig_oauth2_defaults_witness :
  getActiveAuthMode env_keycloak = AuthMode.OAuth2 /\
  getOAuthConfig env_keycloak "https://host" !! "redirectUri"
    = Some (VString "https://host/#/callback") /\
  getOAuthConfig env_keycloak "https://host" !! "scope"
    = Some (VString "openid profile email") /\
  getOAuthConfig env_keycloak "https://host" !! "oidc" = Some (VBoolean false) /\
  getOAuthConfig env_keycloak "https://host" !! "responseType" = Some (VString "code") /\
  getOAuthConfig env_keycloak "https://host" !! "skipIssuerCheck" = Some (VBoolean true) /\
  getOAuthConfig env_keycloak "https://host" !! "strictDiscoveryDocumentValidation"
    = Some (VBoolean false).
Proof.
  split; [reflexivity |].
  exact (getOAuthConfig_oauth2_defaults env_keycloak "https://host" eq_refl).
Defined.

(** C9. In OAuth2 mode [clientId] is [oauth.appId] as it stands, with no
    default and no fallback: the string that is set, whatever it is, and
    [undefined] when none is.  So with an empty [appId] it is [''], which
    is also the [clientId] of every Basic-mode result. *)
Theorem getOAuthConfig_oauth2_clientId (env : Environment) (origin : string) :
  getActiveAuthMode env = AuthMode.OAuth2 ->
  (forall id : string,
     appId (oauth env) = Some id ->
     getOAuthConfig env origin !! "clientId" = Some (VString id)) /\
  (appId (oauth env) = None ->
     getOAuthConfig env origin !! "clientId" = Some VUndefined) /\
  (appId (oauth env) = Some "" ->
     getOAuthConfig env origin !! "clientId" = Some (VString "") /\
     forall (env' : Environment) (origin' : string),
       getActiveAuthMode env' = AuthMode.Basic ->
       getOAuthConfig env origin !! "clientId"
         = getOAuthConfig env' origin' !! "clientId").
Proof.
  intros Hm. in_mode Hm.
  assert (Hid : getOAuth2Config env origin !! "clientId"
                = Some (of_setting (appId (oauth env)))) by reflexivity.
  rewrite Hid.
  split; [| split].
  - intros id ->. reflexivity.
  - intros ->. reflexivity.
  - intros ->. split; [reflexivity |].
    intros env' origin' Hb. in_mode Hb. reflexivity.
Qed.

Lemma getOAuthConfig_oauth2_clientId_witness :
  (getActiveAuthMode env_keycloak = AuthMode.OAuth2 /\
   appId (oauth env_keycloak) = Some "community-app" /\
   getOAuthConfig env_keycloak "https://host" !! "clientId"
     = Some (VString "community-app")) /\
  (getActiveAuthMode env_oauth2_unset = AuthMode.OAuth2 /\
   appId (oauth env_oauth2_unset) = None /\
   getOAuthConfig env_oauth2_unset "https://host" !! "clientId" = Some VUndefined) /\
  (getActiveAuthMode env_oauth2_bare = AuthMode.OAuth2 /\
   appId (oauth env_oauth2_bare) = Some "" /\
   getOAuthConfig env_oauth2_bare "https://host" !! "clientId" = Some (VString "") /\
   getOAuthConfig env_oauth2_bare "https://host" !! "clientId"
     = getOAuthConfig env_basic "https://host" !! "clientId").
Proof.
  split; [| split].
  - split; [reflexivity |]. split; [reflexivity |].
    exact (proj1 (getOAuthConfig_oauth2_clientId env_keycloak "https://host" eq_refl)
             "community-app" eq_refl).
  - split; [reflexivity |]. split; [reflexivity |].
    exact (proj1 (proj2
             (getOAuthConfig_oauth2_clientId env_oauth2_unset "https://host" eq_refl))
           eq_refl).
  - split; [reflexivity |]. split; [reflexivity |].
    pose proof (proj2 (proj2
                  (getOAuthConfig_oauth2_clientId env_oauth2_bare "https://host" eq_refl))
                eq_refl) as [Hid Hsame].
    split; [exact Hid |].
    exact (Hsame env_basic "https://host" eq_refl).
Defined.

(** C10. In OAuth2 mode the post-logout redirect is [`${origin}/#/login`]:
    it is built from the browser origin alone, so two environments in
    OAuth2 mode give the same one, whatever their settings. *)
Theorem getOAuthConfig_oauth2_postLogout (env : Environment) (origin : string) :
  getActiveAuthMode env = AuthMode.OAuth2 ->
  getOAuthConfig env origin !! "postLogoutRedirectUri"
    = Some (VString (origin +:+ "/#/login")) /\
  forall env' : Environment,
    getActiveAuthMode env' = AuthMode.OAuth2 ->
    getOAuthConfig env' origin !! "postLogoutRedirectUri"
      = getOAuthConfig env origin !! "postLogoutRedirectUri".
Proof.
  intros Hm. split.
  - in_mode Hm. reflexivity.
  - intros env' Hm'. in_mode Hm'. in_mode Hm. reflexivity.
Qed.

Lemma getOAuthConfig_oauth2_postLogout_witness :
  getActiveAuthMode env_overridden = AuthMode.OAuth2 /\
  getOAuthConfig env_overridden "https://host" !! "postLogoutRedirectUri"
    = Some (VString "https://host/#/login") /\
  getOAuthConfig env_keycloak "https://host" !! "postLogoutRedirectUri"
    = getOAuthConfig env_overridden "https://host" !! "postLogoutRedirectUri".
Proof.
  split; [reflexivity |].
  pose proof (getOAuthConfig_oauth2_postLogout env_overridden "https://host" eq_refl)
    as [Hv Hsame].
  split; [exact Hv |].
  exact (Hsame env_keycloak eq_refl).
Defined.

(** ** OIDC mode *)

(** C5. In OIDC mode the result carries the issuer and client id of the
    OIDC settings, the two redirect URIs built on [frontUrl] (the configured
    [oidcFrontUrl] if non-empty, else the browser origin), the fixed
    response type and scope, [oidc] on, silent refresh off, [requireHttps]
    equal to the [production] flag and [showDebugInformation] to its
    negation, and session checks and hash clearing off. *)
Theorem getOAuthConfig_oidc_fields (env : Environment) (origin : string) :
  getActiveAuthMode env = AuthMode.OIDC ->
  let frontUrl := or_default (oidcFrontUrl (OIDC env)) origin in
  let cfg := getOAuthConfig env origin in
  cfg !! "issuer" = Some (of_setting (oidcBaseUrl (OIDC env))) /\
  cfg !! "clientId" = Some (of_setting (oidcClientId (OIDC env))) /\
  cfg !! "redirectUri" = Some (VString (frontUrl +:+ "/callback")) /\
  cfg !! "postLogoutRedirectUri" = Some (VString (frontUrl +:+ "/#/login")) /\
  cfg !! "responseType" = Some (VString "code") /\
  cfg !! "scope" = Some (VString "openid profile email offline_access") /\
  cfg !! "oidc" = Some (VBoolean true) /\
  cfg !! "useSilentRefresh" = Some (VBoolean false) /\
  cfg !! "requireHttps" = Some (VBoolean (production env)) /\
  cfg !! "showDebugInformation" = Some (VBoolean (negb (production env))) /\
  cfg !! "sessionChecksEnabled" = Some (VBoolean false) /\
  cfg !! "clearHashAfterLogin" = Some (VBoolean false).
Proof.
  intros Hm frontUrl cfg. subst frontUrl cfg.
  in_mode Hm.
  unfold getOIDCConfig. rewrite js_or_or_default.
  repeat (split; [reflexivity |]). reflexivity.
Qed.

Lemma getOAuthConfig_oidc_fields_witness :
  getActiveAuthMode env_oidc = AuthMode.OIDC /\
  getOAuthConfig env_oidc "https://host" !! "issuer"
    = Some (VString "https://id.example.com") /\
  getOAuthConfig env_oidc "https://host" !! "clientId" = Some (VString "web-app") /\
  getOAuthConfig env_oidc "https://host" !! "redirectUri"
    = Some (VString "https://host/callback") /\
  getOAuthConfig env_oidc "https://host" !! "postLogoutRedirectUri"
    = Some (VString "https://host/#/login").
Proof.
  split; [reflexivity |].
  pose proof (getOAuthConfig_oidc_fields env_oidc "https://host" eq_refl)
    as (Hissuer & Hclient & Hredirect & Hlogout & _).
  split; [exact Hissuer |]. split; [exact Hclient |].
  split; [exact Hredirect | exact Hlogout].
Defined.

(** ** Missing and empty settings *)

(** C6, as the code has it.  Both functions give a result for every
    environment, and nothing is validated: each mode gives its object with
    all its properties, whatever is missing.  A setting that is passed
    through ([oauth.appId], [oidcBaseUrl], [oidcClientId]) shows as it is:
    the empty string when it is empty, [undefined] when it is unset.  In
    OAuth2 mode an endpoint whose override and server URL are both unset or
    empty is the empty string, and the issuer is ['/realms/' + realm] for
    an empty server URL and ['undefined/realms/' + realm] for an unset
    one. *)
Theorem getOAuthConfig_no_validation (env : Environment) (origin : string) :
  (getActiveAuthMode env = AuthMode.OIDC ->
     dom (getOAuthConfig env origin)
       = list_to_set [ "issuer"; "clientId"; "redirectUri"; "postLogoutRedirectUri";
                       "responseType"; "scope"; "oidc"; "useSilentRefresh";
                       "requireHttps"; "showDebugInformation";
                       "sessionChecksEnabled"; "clearHashAfterLogin" ] /\
     (forall s : string, oidcBaseUrl (OIDC env) = Some s ->
        getOAuthConfig env origin !! "issuer" = Some (VString s)) /\
     (oidcBaseUrl (OIDC env) = None ->
        getOAuthConfig env origin !! "issuer" = Some VUndefined) /\
     (forall s : string, oidcClientId (OIDC env) = Some s ->
        getOAuthConfig env origin !! "clientId" = Some (VString s)) /\
     (oidcClientId (OIDC env) = None ->
        getOAuthConfig env origin !! "clientId" = Some VUndefined)) /\
  (getActiveAuthMode env = AuthMode.OAuth2 ->
     dom (getOAuthConfig env origin)
       = list_to_set [ "issuer"; "loginUrl"; "tokenEndpoint"; "redirectUri";
                       "postLogoutRedirectUri"; "clientId"; "responseType"; "scope";
                       "useSilentRefresh"; "oidc"; "skipIssuerCheck";
                       "strictDiscoveryDocumentValidation"; "requireHttps";
                       "showDebugInformation"; "sessionChecksEnabled";
                       "clearHashAfterLogin" ] /\
     (blank (serverUrl (oauth env)) -> blank (authorizeUrl (oauth env)) ->
        getOAuthConfig env origin !! "loginUrl" = Some (VString "")) /\
     (blank (serverUrl (oauth env)) -> blank (tokenUrl (oauth env)) ->
        getOAuthConfig env origin !! "tokenEndpoint" = Some (VString "")) /\
     (serverUrl (oauth env) = Some "" ->
        getOAuthConfig env origin !! "issuer"
          = Some (VString ("/realms/" +:+ or_default (realm (oauth env)) "fineract"))) /\
     (serverUrl (oauth env) = None ->
        getOAuthConfig env origin !! "issuer"
          = Some (VString ("undefined/realms/"
                             +:+ or_default (realm (oauth env)) "fineract"))) /\
     (appId (oauth env) = Some "" ->
        getOAuthConfig env origin !! "clientId" = Some (VString "")) /\
     (appId (oauth env) = None ->
        getOAuthConfig env origin !! "clientId" = Some VUndefined)) /\
  (getActiveAuthMode env = AuthMode.Basic ->
     getOAuthConfig env origin = {[ "clientId" := VString "" ]}).
Proof.
  split; [| split].
  - intros Hm. in_mode Hm.
    split; [reflexivity |].
    assert (Hissuer : getOIDCConfig env origin !! "issuer"
                      = Some (of_setting (oidcBaseUrl (OIDC env)))) by reflexivity.
    assert (Hid : getOIDCConfig env origin !! "clientId"
                  = Some (of_setting (oidcClientId (OIDC env)))) by reflexivity.
    rewrite Hissuer, Hid.
    split; [intros s ->; reflexivity |]. split; [intros ->; reflexivity |].
    split; [intros s ->; reflexivity | intros ->; reflexivity].
  - intros Hm. in_mode Hm.
    split; [reflexivity |].
    split.
    { intros Hs Ha. unfold getOAuth2Config, Const.authorizeUrl.
      rewrite endpoint_fallback, (resolve_endpoint_empty _ _ _ _ Ha Hs). reflexivity. }
    split.
    { intros Hs Ht. unfold getOAuth2Config, Const.tokenUrl.
      rewrite endpoint_fallback, (resolve_endpoint_empty _ _ _ _ Ht Hs). reflexivity. }
    assert (Hissuer : getOAuth2Config env origin !! "issuer"
              = Some (VString (tmpl (serverUrl (oauth env)) +:+ "/realms/"
                                 +:+ or_default (realm (oauth env)) "fineract"))).
    { unfold getOAuth2Config. rewrite Const_realm_default. reflexivity. }
    assert (Hid : getOAuth2Config env origin !! "clientId"
                  = Some (of_setting (appId (oauth env)))) by reflexivity.
    rewrite Hissuer, Hid.
    split; [intros ->; reflexivity |]. split; [intros ->; reflexivity |].
    split; intros ->; reflexivity.
  - intros Hm. in_mode Hm. reflexivity.
Qed.

Lemma getOAuthConfig_no_validation_witness :
  (getActiveAuthMode env_oauth2_unset = AuthMode.OAuth2 /\
   blank (serverUrl (oauth env_oauth2_unset)) /\
   blank (authorizeUrl (oauth env_oauth2_unset)) /\
   getOAuthConfig env_oauth2_unset "https://host" !! "loginUrl" = Some (VString "") /\
   getOAuthConfig env_oauth2_unset "https://host" !! "issuer"
     = Some (VString "undefined/realms/fineract") /\
   getOAuthConfig env_oauth2_unset "https://host" !! "clientId" = Some VUndefined) /\
  (getActiveAuthMode env_oauth2_bare = AuthMode.OAuth2 /\
   getOAuthConfig env_oauth2_bare "https://host" !! "issuer"
     = Some (VString "/realms/fineract") /\
   getOAuthConfig env_oauth2_bare "https://host" !! "clientId" = Some (VString "")) /\
  (getActiveAuthMode env_oidc_unset = AuthMode.OIDC /\
   getOAuthConfig env_oidc_unset "https://host" !! "issuer" = Some VUndefined /\
   getOAuthConfig env_oidc_unset "https://host" !! "clientId" = Some VUndefined) /\
  (getActiveAuthMode env_oidc = AuthMode.OIDC /\
   getOAuthConfig env_oidc "https://host" !! "issuer"
     = Some (VString "https://id.example.com")).
Proof.
  split; [| split; [| split]].
  - pose proof (proj1 (proj2 (getOAuthConfig_no_validation env_oauth2_unset
                               "https://host")) eq_refl)
      as (_ & Hlogin & _ & _ & Hissuer & _ & Hid).
    split; [reflexivity |]. split; [left; reflexivity |]. split; [left; reflexivity |].
    split; [exact (Hlogin (or_introl eq_refl) (or_introl eq_refl)) |].
    split; [exact (Hissuer eq_refl) | exact (Hid eq_refl)].
  - pose proof (proj1 (proj2 (getOAuthConfig_no_validation env_oauth2_bare
                               "https://host")) eq_refl)
      as (_ & _ & _ & Hissuer & _ & Hid & _).
    split; [reflexivity |].
    split; [exact (Hissuer eq_refl) | exact (Hid eq_refl)].
  - pose proof (proj1 (getOAuthConfig_no_validation env_oidc_unset "https://host")
                  eq_refl)
      as (_ & _ & Hissuer & _ & Hid).
    split; [reflexivity |].
    split; [exact (Hissuer eq_refl) | exact (Hid eq_refl)].
  - pose proof (proj1 (getOAuthConfig_no_validation env_oidc "https://host") eq_refl)
      as (_ & Hissuer & _).
    split; [reflexivity |].
    exact (Hissuer "https://id.example.com" eq_refl).
Defined.

(** C6 as it is worded does not hold: a missing value does not become an
    empty-string field.  With [oauth.appId] and [oauth.serverUrl] unset, the
    client id of the OAuth2 object is [undefined], not [''], and its issuer
    is ['undefined/realms/fineract']. *)
Lemma getOAuthConfig_missing_is_not_empty :
  getActiveAuthMode env_oauth2_unset = AuthMode.OAuth2 /\
  appId (oauth env_oauth2_unset) = None /\
  getOAuthConfig env_oauth2_unset "https://host" !! "clientId" = Some VUndefined /\
  getOAuthConfig env_oauth2_unset "https://host" !! "clientId" <> Some (VString "") /\
  serverUrl (oauth env_oauth2_unset) = None /\
  getOAuthConfig env_oauth2_unset "https://host" !! "issuer"
    = Some (VString "undefined/realms/fineract") /\
  getOAuthConfig env_oauth2_unset "https://host" !! "issuer" <> Some (VString "").
Proof.
  split; [reflexivity |]. split; [reflexivity |]. split; [reflexivity |].
  split; [discriminate |]. split; [reflexivity |]. split; [reflexivity |].
  discriminate.
Qed.

(** ** Determinism *)

Lemma or_else_run (v : setting) (d : Ambient.JS string) (x : string)
    (g : Ambient.Globals) :
  d g = (x, g) -> Ambient.or_else v d g = (js_or v x, g).
Proof. intros Hd. destruct v as [[|a s]|]; simpl; auto. Qed.

Lemma or_else_read (v : setting) (get : Ambient.Globals -> string)
    (g : Ambient.Globals) :
  Ambient.or_else v (fun g0 => (get g0, g0)) g = (js_or v (get g), g).
Proof. now apply or_else_run. Qed.

Lemma or_else_mret (v : setting) (x : string) (g : Ambient.Globals) :
  Ambient.or_else v (fun g0 => (x, g0)) g = (js_or v x, g).
Proof. now apply or_else_run. Qed.

Lemma endpoint_run (override server : setting) (realm endpoint : string)
    (g : Ambient.Globals) :
  Ambient.endpoint override server realm endpoint g
  = (js_or override
       (if truthy server
        then tmpl server +:+ "/realms/" +:+ realm
               +:+ "/protocol/openid-connect/" +:+ endpoint
        else ""), g).
Proof. unfold Ambient.endpoint. now apply or_else_run. Qed.

Ltac run_js :=
  cbv beta iota delta [mbind mret Ambient.JS_bind Ambient.JS_ret Ambient.read].

(** Run over the globals, each function of the module returns what its
    counterpart over explicit arguments returns, and leaves the globals as
    they were. *)
Lemma Ambient_getActiveAuthMode_run (g : Ambient.Globals) :
  Ambient.getActiveAuthMode g = (getActiveAuthMode (Ambient.environment g), g).
Proof.
  unfold Ambient.getActiveAuthMode, getActiveAuthMode. run_js.
  destruct (oidcServerEnabled (OIDC (Ambient.environment g))); [reflexivity |].
  destruct (enabled (oauth (Ambient.environment g))); reflexivity.
Qed.

Lemma Ambient_getOIDCConfig_run (g : Ambient.Globals) :
  Ambient.getOIDCConfig g
  = (getOIDCConfig (Ambient.environment g)
       (Ambient.origin (Ambient.location (Ambient.window g))), g).
Proof.
  unfold Ambient.getOIDCConfig. run_js.
  rewrite or_else_read. reflexivity.
Qed.

Lemma Ambient_getOAuth2Config_run (g : Ambient.Globals) :
  Ambient.getOAuth2Config g
  = (getOAuth2Config (Ambient.environment g)
       (Ambient.origin (Ambient.location (Ambient.window g))), g).
Proof.
  unfold Ambient.getOAuth2Config. run_js.
  rewrite or_else_mret. run_js.
  rewrite endpoint_run. run_js.
  rewrite endpoint_run. run_js.
  rewrite endpoint_run. run_js.
  rewrite or_else_mret. run_js.
  rewrite or_else_mret.
  reflexivity.
Qed.

Lemma Ambient_getOAuthConfig_run (g : Ambient.Globals) :
  Ambient.getOAuthConfig g
  = (getOAuthConfig (Ambient.environment g)
       (Ambient.origin (Ambient.location (Ambient.window g))), g).
Proof.
  unfold Ambient.getOAuthConfig, getOAuthConfig.
  unfold mbind, Ambient.JS_bind. rewrite Ambient_getActiveAuthMode_run.
  destruct (getActiveAuthMode (Ambient.environment g)).
  - apply Ambient_getOAuth2Config_run.
  - apply Ambient_getOIDCConfig_run.
  - reflexivity.
Qed.

(** C8. [getOAuthConfig] is deterministic, and pure but for what it reads:
    a call leaves the globals as they were; a second call, made after the
    first, returns the same object; and two calls made where the
    environment and the origin are the same return the same object,
    whatever else differs. *)
Theorem getOAuthConfig_deterministic (g g' : Ambient.Globals) :
  Ambient.environment g = Ambient.environment g' ->
  Ambient.origin (Ambient.location (Ambient.window g))
    = Ambient.origin (Ambient.location (Ambient.window g')) ->
  snd (Ambient.getOAuthConfig g) = g /\
  fst (Ambient.getOAuthConfig (snd (Ambient.getOAuthConfig g)))
    = fst (Ambient.getOAuthConfig g) /\
  fst (Ambient.getOAuthConfig g') = fst (Ambient.getOAuthConfig g).
Proof.
  intros Henv Horigin.
  rewrite !Ambient_getOAuthConfig_run. simpl fst. simpl snd.
  split; [reflexivity |]. split; [reflexivity |].
  now rewrite Henv, Horigin.
Qed.

Lemma getOAuthConfig_deterministic_witness :
  Ambient.environment globals_login = Ambient.environment globals_callback /\
  Ambient.origin (Ambient.location (Ambient.window globals_login))
    = Ambient.origin (Ambient.location (Ambient.window globals_callback)) /\
  globals_login <> globals_callback /\
  snd (Ambient.getOAuthConfig globals_login) = globals_login /\
  fst (Ambient.getOAuthConfig globals_callback)
    = fst (Ambient.getOAuthConfig globals_login).
Proof.
  split; [reflexivity |]. split; [reflexivity |]. split; [discriminate |].
  pose proof (getOAuthConfig_deterministic globals_login globals_callback
                eq_refl eq_refl) as (Hsame & _ & Hagree).
  split; [exact Hsame | exact Hagree].
Defined.

(** ** Further properties of the configuration module *)

Lemma append_assoc (a b c : string) : (a +:+ b) +:+ c = a +:+ b +:+ c.
Proof.
  induction a as [|x a IH]; [reflexivity |].
  change (String x ((a +:+ b) +:+ c) = String x (a +:+ b +:+ c)).
  now rewrite IH.
Qed.

Lemma append_empty_inv (a b : string) : a +:+ b = "" -> a = "" /\ b = "".
Proof. destruct a; simpl; [auto | discriminate]. Qed.

Lemma resolve_endpoint_empty_iff (override server realm : setting) (endpoint : string) :
  resolve_endpoint override server realm endpoint = "" <->
  blank override /\ blank server.
Proof.
  split.
  - unfold resolve_endpoint, keycloak.
    destruct override as [[|a u]|]; try discriminate;
      destruct server as [[|b s]|]; try discriminate; intros _;
      (split; [first [left; reflexivity | right; reflexivity]
              | first [left; reflexivity | right; reflexivity]]).
  - intros [Ho Hs]. now apply resolve_endpoint_empty.
Qed.

Lemma getOAuth2Config_loginUrl (env : Environment) (origin : string) :
  getOAuth2Config env origin !! "loginUrl"
  = Some (VString (resolve_endpoint (authorizeUrl (oauth env))
                     (serverUrl (oauth env)) (realm (oauth env)) "auth")).
Proof.
  unfold getOAuth2Config, Const.authorizeUrl. rewrite endpoint_fallback. reflexivity.
Qed.

Lemma getOAuth2Config_tokenEndpoint (env : Environment) (origin : string) :
  getOAuth2Config env origin !! "tokenEndpoint"
  = Some (VString (resolve_endpoint (tokenUrl (oauth env))
                     (serverUrl (oauth env)) (realm (oauth env)) "token")).
Proof.
  unfold getOAuth2Config, Const.tokenUrl. rewrite endpoint_fallback. reflexivity.
Qed.

(** The [oidc] property tells the three modes apart: it is [true] in OIDC
    mode only, [false] in OAuth2 mode only, and absent in Basic mode only. *)
Theorem getOAuthConfig_oidc_flag (env : Environment) (origin : string) :
  (getOAuthConfig env origin !! "oidc" = Some (VBoolean true)
     <-> getActiveAuthMode env = AuthMode.OIDC) /\
  (getOAuthConfig env origin !! "oidc" = Some (VBoolean false)
     <-> getActiveAuthMode env = AuthMode.OAuth2) /\
  (getOAuthConfig env origin !! "oidc" = None
     <-> getActiveAuthMode env = AuthMode.Basic).
Proof.
  destruct (getActiveAuthMode env) eqn:Hm; in_mode Hm;
    (split; [| split]); split; intros H;
    solve [ reflexivity | discriminate H ].
Qed.

(** The OAuth2 object has the properties of the OIDC object and four more:
    the two explicit endpoints and the two validation switches, none of
    which an OIDC object ever carries. *)
Theorem getOAuthConfig_property_names
    (env1 env2 : Environment) (origin1 origin2 : string) :
  getActiveAuthMode env1 = AuthMode.OIDC ->
  getActiveAuthMode env2 = AuthMode.OAuth2 ->
  dom (getOAuthConfig env1 origin1)
    = list_to_set [ "issuer"; "clientId"; "redirectUri"; "postLogoutRedirectUri";
                    "responseType"; "scope"; "oidc"; "useSilentRefresh";
                    "requireHttps"; "showDebugInformation";
                    "sessionChecksEnabled"; "clearHashAfterLogin" ] /\
  dom (getOAuthConfig env2 origin2)
    = dom (getOAuthConfig env1 origin1)
      ∪ list_to_set [ "loginUrl"; "tokenEndpoint"; "skipIssuerCheck";
                      "strictDiscoveryDocumentValidation" ] /\
  (forall k : string,
     k ∈ [ "loginUrl"; "tokenEndpoint"; "skipIssuerCheck";
           "strictDiscoveryDocumentValidation" ] ->
     getOAuthConfig env1 origin1 !! k = None /\
     is_Some (getOAuthConfig env2 origin2 !! k)).
Proof.
  intros H1 H2. in_mode H1. in_mode H2.
  split; [reflexivity |]. split; [reflexivity |].
  intros k Hk.
  repeat (apply elem_of_cons in Hk as [-> | Hk];
          [split; [reflexivity | eexists; reflexivity] |]).
  inversion Hk.
Qed.

Lemma getOAuthConfig_property_names_witness :
  getActiveAuthMode env_oidc = AuthMode.OIDC /\
  getActiveAuthMode env_keycloak = AuthMode.OAuth2 /\
  getOAuthConfig env_oidc "https://host" !! "loginUrl" = None /\
  is_Some (getOAuthConfig env_keycloak "https://host" !! "loginUrl").
Proof.
  split; [reflexivity |]. split; [reflexivity |].
  apply (proj2 (proj2 (getOAuthConfig_property_names env_oidc env_keycloak
                         "https://host" "https://host" eq_refl eq_refl))).
  apply elem_of_cons. left. reflexivity.
Defined.

(** In OAuth2 mode, an endpoint that is derived (server URL provided, no
    override) extends the issuer: it is the issuer followed by
    [/protocol/openid-connect/<endpoint>]. *)
Theorem getOAuthConfig_oauth2_endpoints_extend_issuer
    (env : Environment) (origin : string) :
  getActiveAuthMode env = AuthMode.OAuth2 ->
  provided (serverUrl (oauth env)) ->
  exists issuer : string,
    getOAuthConfig env origin !! "issuer" = Some (VString issuer) /\
    (blank (authorizeUrl (oauth env)) ->
       getOAuthConfig env origin !! "loginUrl"
         = Some (VString (issuer +:+ "/protocol/openid-connect/auth"))) /\
    (blank (tokenUrl (oauth env)) ->
       getOAuthConfig env origin !! "tokenEndpoint"
         = Some (VString (issuer +:+ "/protocol/openid-connect/token"))).
Proof.
  intros Hm Hs. in_mode Hm.
  eexists. split; [reflexivity |].
  apply truthy_provided in Hs.
  unfold getOAuth2Config, Const.authorizeUrl, Const.tokenUrl, Const.derived.
  rewrite Hs.
  split; intros Hb; rewrite (js_or_blank _ _ Hb), append_assoc; reflexivity.
Qed.

Lemma getOAuthConfig_oauth2_endpoints_extend_issuer_witness :
  getActiveAuthMode env_keycloak = AuthMode.OAuth2 /\
  provided (serverUrl (oauth env_keycloak)) /\
  exists issuer : string,
    getOAuthConfig env_keycloak "https://host" !! "issuer" = Some (VString issuer) /\
    getOAuthConfig env_keycloak "https://host" !! "loginUrl"
      = Some (VString (issuer +:+ "/protocol/openid-connect/auth")).
Proof.
  assert (Hp : provided (serverUrl (oauth env_keycloak))).
  { exists "https://auth.example.com". split; [reflexivity | discriminate]. }
  split; [reflexivity |]. split; [exact Hp |].
  destruct (getOAuthConfig_oauth2_endpoints_extend_issuer env_keycloak
              "https://host" eq_refl Hp) as (issuer & Hi & Hl & _).
  exists issuer. split; [exact Hi |]. apply Hl. left. reflexivity.
Defined.

(** In OAuth2 mode an empty [loginUrl] (or [tokenEndpoint]) means exactly
    that neither the override nor the server URL was given: the empty
    endpoint is a reliable sign of a missing configuration. *)
Theorem getOAuthConfig_oauth2_empty_endpoint (env : Environment) (origin : string) :
  getActiveAuthMode env = AuthMode.OAuth2 ->
  (getOAuthConfig env origin !! "loginUrl" = Some (VString "")
     <-> blank (authorizeUrl (oauth env)) /\ blank (serverUrl (oauth env))) /\
  (getOAuthConfig env origin !! "tokenEndpoint" = Some (VString "")
     <-> blank (tokenUrl (oauth env)) /\ blank (serverUrl (oauth env))).
Proof.
  intros Hm. in_mode Hm.
  rewrite getOAuth2Config_loginUrl, getOAuth2Config_tokenEndpoint.
  split; (split; [intros H; injection H as H; now apply resolve_endpoint_empty_iff in H
                 | intros [Ho Hs]; now rewrite resolve_endpoint_empty]).
Qed.

Lemma getOAuthConfig_oauth2_empty_endpoint_witness :
  getActiveAuthMode env_oauth2_bare = AuthMode.OAuth2 /\
  getOAuthConfig env_oauth2_bare "https://host" !! "loginUrl" = Some (VString "").
Proof.
  split; [reflexivity |].
  apply (proj1 (getOAuthConfig_oauth2_empty_endpoint env_oauth2_bare
                  "https://host" eq_refl)).
  split; [left; reflexivity | right; reflexivity].
Defined.

Lemma length_append (a b : string) :
  String.length (a +:+ b) = String.length a + String.length b.
Proof.
  induction a as [|x a IH]; [reflexivity |].
  change (S (String.length (a +:+ b)) = S (String.length a + String.length b)).
  now rewrite IH.
Qed.

Lemma append_cancel_r (a b c : string) : a +:+ c = b +:+ c -> a = b.
Proof.
  intros H.
  assert (Hlen : String.length a = String.length b).
  { apply (f_equal String.length) in H. rewrite !length_append in H. lia. }
  revert b H Hlen.
  induction a as [|x a IH]; intros [|y b] H Hlen; try discriminate Hlen.
  - reflexivity.
  - change (String x (a +:+ c) = String y (b +:+ c)) in H.
    injection H as -> H. f_equal. apply IH; [exact H |].
    simpl in Hlen. lia.
Qed.

(** In OIDC mode the result is a function of the OIDC settings, the
    [production] flag and the origin: no [oauth] setting has any effect. *)
Theorem getOAuthConfig_oidc_ignores_oauth (env env' : Environment) (origin : string) :
  getActiveAuthMode env = AuthMode.OIDC ->
  OIDC env' = OIDC env ->
  production env' = production env ->
  getActiveAuthMode env' = AuthMode.OIDC /\
  getOAuthConfig env' origin = getOAuthConfig env origin.
Proof.
  intros Hm Hoidc Hprod.
  assert (Hm' : getActiveAuthMode env' = AuthMode.OIDC).
  { apply mode_OIDC_iff. rewrite Hoidc. now apply mode_OIDC_iff. }
  split; [exact Hm' |].
  in_mode Hm. in_mode Hm'.
  unfold getOIDCConfig. rewrite Hoidc, Hprod. reflexivity.
Qed.

Lemma getOAuthConfig_oidc_ignores_oauth_witness :
  getActiveAuthMode env_oidc = AuthMode.OIDC /\
  oauth {| production := true; oauth := oauth_overridden; OIDC := oidc_on |}
    <> oauth env_oidc /\
  getOAuthConfig {| production := true; oauth := oauth_overridden; OIDC := oidc_on |}
      "https://host"
    = getOAuthConfig env_oidc "https://host".
Proof.
  split; [reflexivity |]. split; [discriminate |].
  exact (proj2 (getOAuthConfig_oidc_ignores_oauth env_oidc
                  {| production := true; oauth := oauth_overridden; OIDC := oidc_on |}
                  "https://host" eq_refl eq_refl eq_refl)).
Defined.

(** In OAuth2 mode the result is a function of the [oauth] settings, the
    [production] flag and the origin: the OIDC base URL, client id and
    front URL have no effect. *)
Theorem getOAuthConfig_oauth2_ignores_oidc (env env' : Environment) (origin : string) :
  getActiveAuthMode env = AuthMode.OAuth2 ->
  getActiveAuthMode env' = AuthMode.OAuth2 ->
  oauth env' = oauth env ->
  production env' = production env ->
  getOAuthConfig env' origin = getOAuthConfig env origin.
Proof.
  intros Hm Hm' Hoauth Hprod.
  in_mode Hm. in_mode Hm'.
  unfold getOAuth2Config, Const.realm, Const.authorizeUrl, Const.tokenUrl,
    Const.logoutUrl, Const.redirectUri, Const.scope, Const.derived, Const.realm.
  rewrite Hoauth, Hprod. reflexivity.
Qed.

Lemma getOAuthConfig_oauth2_ignores_oidc_witness :
  getActiveAuthMode env_keycloak = AuthMode.OAuth2 /\
  getActiveAuthMode env_keycloak_oidc_filled = AuthMode.OAuth2 /\
  getOAuthConfig env_keycloak_oidc_filled "https://host"
    = getOAuthConfig env_keycloak "https://host".
Proof.
  split; [reflexivity |]. split; [reflexivity |].
  exact (getOAuthConfig_oauth2_ignores_oidc env_keycloak env_keycloak_oidc_filled
           "https://host" eq_refl eq_refl eq_refl eq_refl).
Defined.

(** The browser origin: in OIDC mode a configured [oidcFrontUrl] replaces
    it altogether, so the result is the same at every origin. *)
Theorem getOAuthConfig_oidc_frontUrl_shields_origin
    (env : Environment) (origin origin' : string) :
  getActiveAuthMode env = AuthMode.OIDC ->
  provided (oidcFrontUrl (OIDC env)) ->
  getOAuthConfig env origin = getOAuthConfig env origin'.
Proof.
  intros Hm (s & Hs & Hne). rewrite !(getOAuthConfig_in_OIDC _ _ Hm).
  unfold getOIDCConfig. rewrite !js_or_or_default.
  rewrite !(or_default_provided _ s _ Hs Hne). reflexivity.
Qed.

Lemma getOAuthConfig_oidc_frontUrl_shields_origin_witness :
  getActiveAuthMode env_oidc_front = AuthMode.OIDC /\
  provided (oidcFrontUrl (OIDC env_oidc_front)) /\
  getOAuthConfig env_oidc_front "https://a.example"
    = getOAuthConfig env_oidc_front "https://b.example".
Proof.
  assert (Hp : provided (oidcFrontUrl (OIDC env_oidc_front))).
  { exists "https://front.example.com". split; [reflexivity | discriminate]. }
  split; [reflexivity |]. split; [exact Hp |].
  exact (getOAuthConfig_oidc_frontUrl_shields_origin env_oidc_front
           "https://a.example" "https://b.example" eq_refl Hp).
Defined.

(** In OAuth2 mode, by contrast, the origin always shows in the result:
    two different origins never give the same object, whatever is
    configured. *)
Theorem getOAuthConfig_oauth2_origin_injective
    (env : Environment) (origin origin' : string) :
  getActiveAuthMode env = AuthMode.OAuth2 ->
  origin <> origin' ->
  getOAuthConfig env origin <> getOAuthConfig env origin'.
Proof.
  intros Hm Hne Heq. apply Hne.
  rewrite !(getOAuthConfig_in_OAuth2 _ _ Hm) in Heq.
  apply (f_equal (fun cfg : gmap string jsval => cfg !! "postLogoutRedirectUri")) in Heq.
  change (Some (VString (origin +:+ "/#/login"))
          = Some (VString (origin' +:+ "/#/login"))) in Heq.
  injection Heq as Heq. exact (append_cancel_r _ _ _ Heq).
Qed.

Lemma getOAuthConfig_oauth2_origin_injective_witness :
  getActiveAuthMode env_overridden = AuthMode.OAuth2 /\
  getOAuthConfig env_overridden "https://a.example"
    <> getOAuthConfig env_overridden "https://b.example".
Proof.
  split; [reflexivity |].
  apply (getOAuthConfig_oauth2_origin_injective env_overridden
           "https://a.example" "https://b.example" eq_refl).
  discriminate.
Defined.

(** Both client modes fix the same security-relevant switches: the
    authorization-code flow, no silent refresh, no session checks, no hash
    clearing, HTTPS required exactly in production and debug output exactly
    outside production. *)
Theorem getOAuthConfig_client_modes_common (env : Environment) (origin : string) :
  getActiveAuthMode env <> AuthMode.Basic ->
  getOAuthConfig env origin !! "responseType" = Some (VString "code") /\
  getOAuthConfig env origin !! "useSilentRefresh" = Some (VBoolean false) /\
  getOAuthConfig env origin !! "sessionChecksEnabled" = Some (VBoolean false) /\
  getOAuthConfig env origin !! "clearHashAfterLogin" = Some (VBoolean false) /\
  getOAuthConfig env origin !! "requireHttps" = Some (VBoolean (production env)) /\
  getOAuthConfig env origin !! "showDebugInformation"
    = Some (VBoolean (negb (production env))) /\
  getOAuthConfig env origin !! "requireHttps"
    <> getOAuthConfig env origin !! "showDebugInformation".
Proof.
  intros Hnb.
  destruct (getActiveAuthMode env) eqn:Hm; [| | contradiction]; in_mode Hm;
    (repeat (split; [reflexivity |])); intros H;
    change (Some (VBoolean (production env))
            = Some (VBoolean (negb (production env)))) in H;
    destruct (production env); discriminate H.
Qed.

Lemma getOAuthConfig_client_modes_common_witness :
  getActiveAuthMode env_keycloak <> AuthMode.Basic /\
  getOAuthConfig env_keycloak "https://host" !! "requireHttps" = Some (VBoolean true) /\
  getOAuthConfig env_keycloak "https://host" !! "showDebugInformation"
    = Some (VBoolean false).
Proof.
  assert (Hnb : getActiveAuthMode env_keycloak <> AuthMode.Basic) by discriminate.
  split; [exact Hnb |].
  destruct (getOAuthConfig_client_modes_common env_keycloak "https://host" Hnb)
    as (_ & _ & _ & _ & Hhttps & Hdebug & _).
  split; [exact Hhttps | exact Hdebug].
Defined.

(** ** JavaScript strings: the fuel of [trimStart] and of [collapse_spaces]
    is enough *)

Lemma skip_space_shorter (s rest : string) :
  Js.skip_space s = Some rest -> String.length rest < String.length s.
Proof.
  unfold Js.skip_space.
  destruct s as [|c1 [|c2 [|c3 s3]]]; try discriminate;
    repeat match goal with
           | |- context [if ?b then _ else _] => destruct b
           end;
    intros Heq; try discriminate Heq; injection Heq as <-; simpl; lia.
Qed.

Lemma trimStart_go_enough (fuel : nat) (s : string) :
  String.length s <= fuel ->
  Js.trimStart_go fuel s = Js.trimStart s.
Proof.
  unfold Js.trimStart.
  remember (String.length s) as n eqn:Hn.
  revert s Hn fuel. induction n as [n IH] using lt_wf_ind; intros s Hn fuel Hle.
  destruct (Js.skip_space s) as [rest|] eqn:Hskip.
  - pose proof (skip_space_shorter s rest Hskip) as Hlt.
    destruct fuel as [|fuel]; [lia |]. destruct n as [|n]; [lia |].
    simpl. rewrite Hskip.
    rewrite (IH (String.length rest) ltac:(lia) rest eq_refl fuel ltac:(lia)).
    rewrite (IH (String.length rest) ltac:(lia) rest eq_refl n ltac:(lia)).
    reflexivity.
  - destruct fuel, n; simpl; rewrite ?Hskip; reflexivity.
Qed.

Lemma trimStart_no_longer (s : string) :
  String.length (Js.trimStart s) <= String.length s.
Proof.
  unfold Js.trimStart.
  remember (String.length s) as n eqn:Hn. rewrite Hn at 2.
  assert (Hle : String.length s <= n) by lia. clear Hn.
  revert s Hle. induction n as [|n IH]; intros s Hle; simpl; [lia |].
  destruct (Js.skip_space s) as [rest|] eqn:Hskip; [| lia].
  pose proof (skip_space_shorter s rest Hskip) as Hlt.
  specialize (IH rest ltac:(lia)). lia.
Qed.

(** What [trimStart] returns has no white space at its head. *)
Lemma trimStart_done (s : string) : Js.skip_space (Js.trimStart s) = None.
Proof.
  unfold Js.trimStart.
  remember (String.length s) as n eqn:Hn.
  assert (Hle : String.length s <= n) by lia. clear Hn.
  revert s Hle. induction n as [|n IH]; intros s Hle; simpl.
  - destruct s; [reflexivity | simpl in Hle; lia].
  - destruct (Js.skip_space s) as [rest|] eqn:Hskip; [| exact Hskip].
    pose proof (skip_space_shorter s rest Hskip) as Hlt.
    apply IH. lia.
Qed.

Lemma collapse_spaces_go_S (fuel : nat) (s : string) :
  Js.collapse_spaces_go (S fuel) s
  = match Js.skip_space s with
    | Some rest => String " " (Js.collapse_spaces_go fuel (Js.trimStart rest))
    | None =>
        match s with
        | EmptyString => EmptyString
        | String a s' => String a (Js.collapse_spaces_go fuel s')
        end
    end.
Proof. reflexivity. Qed.

Lemma collapse_spaces_go_enough (fuel : nat) (s : string) :
  String.length s <= fuel ->
  Js.collapse_spaces_go fuel s = Js.collapse_spaces s.
Proof.
  unfold Js.collapse_spaces.
  remember (String.length s) as n eqn:Hn.
  revert s Hn fuel. induction n as [n IH] using lt_wf_ind; intros s Hn fuel Hle.
  destruct s as [|a s'].
  { destruct fuel, n; reflexivity. }
  simpl in Hn. destruct fuel as [|fuel]; [lia |]. destruct n as [|n]; [lia |].
  rewrite !collapse_spaces_go_S.
  destruct (Js.skip_space (String a s')) as [rest|] eqn:Hskip.
  - pose proof (skip_space_shorter _ rest Hskip) as Hlt. simpl in Hlt.
    pose proof (trimStart_no_longer rest) as Hts.
    rewrite (IH (String.length (Js.trimStart rest)) ltac:(lia) _ eq_refl fuel ltac:(lia)).
    rewrite (IH (String.length (Js.trimStart rest)) ltac:(lia) _ eq_refl n ltac:(lia)).
    reflexivity.
  - rewrite (IH (String.length s') ltac:(lia) _ eq_refl fuel ltac:(lia)).
    rewrite (IH (String.length s') ltac:(lia) _ eq_refl n ltac:(lia)).
    reflexivity.
Qed.

(** ** The login component *)

(** Neither [set_logoPath] nor [updateLogo] touches anything but the logo. *)
Lemma set_logoPath_frame (path : string) (this : LoginComponent.t) :
  LoginComponent.resetPassword (LoginComponent.set_logoPath path this)
    = LoginComponent.resetPassword this /\
  LoginComponent.twoFactorAuthenticationRequired (LoginComponent.set_logoPath path this)
    = LoginComponent.twoFactorAuthenticationRequired this /\
  LoginComponent.router (LoginComponent.set_logoPath path this)
    = LoginComponent.router this.
Proof. split; [reflexivity | split; reflexivity]. Qed.

Lemma updateLogo_frame (env : LoginEnvironment) (tenant : setting) (this : LoginComponent.t) :
  LoginComponent.resetPassword (LoginComponent.updateLogo env tenant this)
    = LoginComponent.resetPassword this /\
  LoginComponent.twoFactorAuthenticationRequired (LoginComponent.updateLogo env tenant this)
    = LoginComponent.twoFactorAuthenticationRequired this /\
  LoginComponent.router (LoginComponent.updateLogo env tenant this)
    = LoginComponent.router this.
Proof.
  unfold LoginComponent.updateLogo.
  repeat match goal with
         | |- context [match ?x with _ => _ end] => destruct x
         end;
    apply set_logoPath_frame.
Qed.

Lemma updateLogo_logoPath_not_empty (env : LoginEnvironment) (tenant : setting) (this : LoginComponent.t) :
  LoginComponent.logoPath (LoginComponent.updateLogo env tenant this) <> "".
Proof.
  assert (Hby : forall name : string,
             "assets/images/" +:+ name +:+ "_home.png" <> "") by discriminate.
  unfold LoginComponent.updateLogo.
  destruct (tenantLogoUrl env) as [[|a url]|]; simpl;
    try (destruct (negb (String.eqb (Js.trim (String a url)) "")); [discriminate |]);
    (destruct tenant as [name|];
     [destruct (truthy (Some name) && negb (String.eqb name "default")) |];
     simpl; first [discriminate | apply Hby]).
Qed.

Lemma react_exclusive (env : LoginEnvironment) (this : LoginComponent.t) (e : LoginComponent.event) :
  exclusive this -> exclusive (LoginComponent.react env this e).
Proof.
  unfold exclusive. intros H. destruct e as [alertType tenant|]; simpl.
  - unfold LoginComponent.onAlertEvent.
    destruct (String.eqb alertType "Password Expired"); [reflexivity |].
    destruct (String.eqb alertType "Two Factor Authentication Required"); [reflexivity |].
    destruct (String.eqb alertType "Authentication Success"); [reflexivity |].
    destruct (String.eqb alertType "Tenant Changed"); [| exact H].
    destruct (updateLogo_frame env tenant this) as (-> & -> & _). exact H.
  - exact H.
Qed.

Lemma react_logoPath_not_empty (env : LoginEnvironment) (this : LoginComponent.t) (e : LoginComponent.event) :
  LoginComponent.logoPath this <> "" -> LoginComponent.logoPath (LoginComponent.react env this e) <> "".
Proof.
  intros H. destruct e as [alertType tenant|]; simpl.
  - unfold LoginComponent.onAlertEvent.
    destruct (String.eqb alertType "Password Expired"); [exact H |].
    destruct (String.eqb alertType "Two Factor Authentication Required"); [exact H |].
    destruct (String.eqb alertType "Authentication Success"); [exact H |].
    destruct (String.eqb alertType "Tenant Changed"); [| exact H].
    apply updateLogo_logoPath_not_empty.
  - discriminate.
Qed.

Lemma fold_react_invariant (P : LoginComponent.t -> Prop) (env : LoginEnvironment) :
  (forall this e, P this -> P (LoginComponent.react env this e)) ->
  forall (es : list LoginComponent.event) (this : LoginComponent.t), P this -> P (fold_left (LoginComponent.react env) es this).
Proof.
  intros Hstep es. induction es as [|e es IH]; intros this H; simpl; [exact H |].
  apply IH, Hstep, H.
Qed.

Lemma react_router (env : LoginEnvironment) (this : LoginComponent.t) (e : LoginComponent.event) :
  LoginComponent.router (LoginComponent.react env this e)
  = (LoginComponent.router this
     ++ if is_success e then [LoginComponent.navigate ["/"] true] else [])%list.
Proof.
  destruct e as [alertType tenant|]; simpl; [| now rewrite app_nil_r].
  unfold LoginComponent.onAlertEvent.
  destruct (String.eqb alertType "Password Expired") eqn:E1.
  { apply String.eqb_eq in E1 as ->. simpl. now rewrite app_nil_r. }
  destruct (String.eqb alertType "Two Factor Authentication Required") eqn:E2.
  { apply String.eqb_eq in E2 as ->. simpl. now rewrite app_nil_r. }
  destruct (String.eqb alertType "Authentication Success") eqn:E3; [reflexivity |].
  rewrite app_nil_r.
  destruct (String.eqb alertType "Tenant Changed"); [| reflexivity].
  apply updateLogo_frame.
Qed.

(** However the alerts arrive, the component never asks for a password
    reset and for a second factor at once. *)
Theorem login_flags_never_both (env : LoginEnvironment) (tenant : setting) (es : list LoginComponent.event) :
  LoginComponent.resetPassword (LoginComponent.run env tenant es)
  && LoginComponent.twoFactorAuthenticationRequired (LoginComponent.run env tenant es) = false.
Proof.
  unfold LoginComponent.run.
  apply (fold_react_invariant exclusive env (react_exclusive env)).
  unfold exclusive.
  destruct (updateLogo_frame env tenant LoginComponent.initial) as (-> & -> & _). reflexivity.
Qed.

(** The logo path is never the empty string: not after initialisation, not
    after any alert, not after a failed load. *)
Theorem login_logoPath_never_empty (env : LoginEnvironment) (tenant : setting) (es : list LoginComponent.event) :
  LoginComponent.logoPath (LoginComponent.run env tenant es) <> "".
Proof.
  unfold LoginComponent.run.
  apply (fold_react_invariant (fun this => LoginComponent.logoPath this <> "") env
           (react_logoPath_not_empty env)).
  apply updateLogo_logoPath_not_empty.
Qed.

(** The component navigates once for each 'Authentication Success' alert,
    always to ['/'] and replacing the URL, and on no other occasion. *)
Theorem login_navigates_on_success_only (env : LoginEnvironment) (tenant : setting)
    (es : list LoginComponent.event) :
  LoginComponent.router (LoginComponent.run env tenant es)
  = replicate (length (List.filter is_success es)) (LoginComponent.navigate ["/"] true).
Proof.
  unfold LoginComponent.run.
  assert (Hgen : forall (es : list LoginComponent.event) (this : LoginComponent.t),
             LoginComponent.router (fold_left (LoginComponent.react env) es this)
             = (LoginComponent.router this
                ++ replicate (length (List.filter is_success es))
                     (LoginComponent.navigate ["/"] true))%list).
  { clear es. intros es. induction es as [|e es IH]; intros this; simpl.
    - now rewrite app_nil_r.
    - rewrite IH, react_router. destruct (is_success e); simpl.
      + now rewrite <- app_assoc.
      + now rewrite app_nil_r. }
  rewrite Hgen.
  destruct (updateLogo_frame env tenant LoginComponent.initial) as (_ & _ & ->). reflexivity.
Qed.

(** The tenant selector is shown exactly when [oauth.enabled] is off and
    the setting is not the string ['false'].  So it is hidden in OAuth2
    mode, follows the setting in Basic mode, and in OIDC mode still depends
    on [oauth.enabled], which the mode itself ignores. *)
Theorem login_displayTenantSelector_by_mode (env : LoginEnvironment) :
  (LoginComponent.displayTenantSelector env = true <->
     enabled (oauth (auth env)) = false /\
     displayTenantSelector env <> Some "false") /\
  (getActiveAuthMode (auth env) = AuthMode.OAuth2 ->
     LoginComponent.displayTenantSelector env = false) /\
  (getActiveAuthMode (auth env) = AuthMode.Basic ->
     LoginComponent.displayTenantSelector env
     = negb (strict_eq (displayTenantSelector env) "false")) /\
  (getActiveAuthMode (auth env) = AuthMode.OIDC ->
     LoginComponent.displayTenantSelector env
     = negb (enabled (oauth (auth env)))
       && negb (strict_eq (displayTenantSelector env) "false")).
Proof.
  unfold LoginComponent.displayTenantSelector, getActiveAuthMode, strict_eq.
  destruct (oidcServerEnabled (OIDC (auth env))), (enabled (oauth (auth env)));
    destruct (displayTenantSelector env) as [x|];
    try destruct (String.eqb_spec x "false") as [-> | Hx]; simpl;
    (split; [split; [intros H; first [discriminate H | split; [reflexivity | congruence]]
                    | intros [H1 H2]; first [discriminate H1 | congruence | reflexivity]]
            |]);
    (split; [intros H; first [discriminate H | reflexivity] |]);
    (split; intros H; first [discriminate H | reflexivity]).
Qed.

Lemma login_displayTenantSelector_by_mode_witness :
  getActiveAuthMode (auth login_env_oauth2) = AuthMode.OAuth2 /\
  displayTenantSelector login_env_oauth2 = Some "true" /\
  LoginComponent.displayTenantSelector login_env_oauth2 = false.
Proof.
  split; [reflexivity |]. split; [reflexivity |].
  exact (proj1 (proj2 (login_displayTenantSelector_by_mode login_env_oauth2)) eq_refl).
Defined.


(** ** The button component *)

(** Each declared variant has an element of its own, any other value of
    the input falls back to the element of ['filled'], and no value gives
    an element outside the five. *)
Theorem componentTag_variants :
  (forall v v' : string,
     v ∈ M3ButtonComponent.M3ButtonVariant ->
     v' ∈ M3ButtonComponent.M3ButtonVariant ->
     M3ButtonComponent.componentTag v = M3ButtonComponent.componentTag v' ->
     v = v') /\
  (forall v : string,
     v ∉ M3ButtonComponent.M3ButtonVariant ->
     M3ButtonComponent.componentTag v = M3ButtonComponent.componentTag "filled") /\
  (forall v : string,
     M3ButtonComponent.componentTag v
     ∈ [ "md-filled-button"; "md-outlined-button"; "md-elevated-button";
         "md-text-button"; "md-filled-tonal-button" ]).
Proof.
  split; [| split].
  - intros v v' Hv Hv'. unfold M3ButtonComponent.M3ButtonVariant in *.
    repeat (apply elem_of_cons in Hv as [-> | Hv]);
      try (now apply elem_of_nil in Hv);
      repeat (apply elem_of_cons in Hv' as [-> | Hv']);
      try (now apply elem_of_nil in Hv');
      intros H; first [reflexivity | discriminate H].
  - intros v Hv. unfold M3ButtonComponent.componentTag.
    repeat match goal with
           | |- context [String.eqb v ?s] =>
               destruct (String.eqb_spec v s) as [-> | _];
               [exfalso; apply Hv; unfold M3ButtonComponent.M3ButtonVariant;
                set_solver |]
           end.
    reflexivity.
  - intros v. unfold M3ButtonComponent.componentTag.
    repeat match goal with
           | |- context [String.eqb v ?s] => destruct (String.eqb v s)
           end; set_solver.
Qed.

Lemma componentTag_variants_witness :
  "tonal" ∈ M3ButtonComponent.M3ButtonVariant /\
  "filled" ∈ M3ButtonComponent.M3ButtonVariant /\
  M3ButtonComponent.componentTag "tonal" <> M3ButtonComponent.componentTag "filled".
Proof.
  assert (H1 : "tonal" ∈ M3ButtonComponent.M3ButtonVariant)
    by (apply list_elem_of_In; simpl; tauto).
  assert (H2 : "filled" ∈ M3ButtonComponent.M3ButtonVariant)
    by (apply list_elem_of_In; simpl; tauto).
  split; [exact H1 |]. split; [exact H2 |].
  intros Heq.
  pose proof (proj1 componentTag_variants "tonal" "filled" H1 H2 Heq) as Hv.
  discriminate Hv.
Defined.

(** ** The licence-header scripts *)

Lemma prefix_replace_backslashes (pat s : string) :
  plain pat = true ->
  String.prefix pat (Js.replace_backslashes s) = String.prefix pat s.
Proof.
  revert s. induction pat as [|a pat IH]; intros s Hp.
  - destruct s; reflexivity.
  - simpl in Hp. apply andb_true_iff in Hp as [Ha Hp].
    apply andb_true_iff in Ha as [Hslash Hback].
    apply negb_true_iff, Ascii.eqb_neq in Hslash.
    apply negb_true_iff, Ascii.eqb_neq in Hback.
    destruct s as [|b s]; [reflexivity |]. simpl.
    destruct (Ascii.eqb_spec b "\") as [-> | Hb].
    + destruct (ascii_dec a "/") as [-> | _]; [contradiction |].
      destruct (ascii_dec a "\") as [-> | _]; [contradiction | reflexivity].
    + destruct (ascii_dec a b); [apply IH, Hp | reflexivity].
Qed.

Lemma includes_replace_backslashes (pat s : string) :
  plain pat = true ->
  Js.includes (Js.replace_backslashes s) pat = Js.includes s pat.
Proof.
  intros Hp. induction s as [|b s IH].
  - reflexivity.
  - change (Js.replace_backslashes (String b s))
      with (String (if Ascii.eqb b "\" then "/"%char else b) (Js.replace_backslashes s)).
    change (Js.includes (String ?x ?r) pat)
      with (String.prefix pat (String x r) || Js.includes r pat).
    rewrite IH.
    change (String (if Ascii.eqb b "\" then "/"%char else b) (Js.replace_backslashes s))
      with (Js.replace_backslashes (String b s)).
    rewrite (prefix_replace_backslashes pat (String b s) Hp). reflexivity.
Qed.

Lemma eqb_replace_backslashes (pat s : string) :
  plain pat = true ->
  String.eqb (Js.replace_backslashes s) pat = String.eqb s pat.
Proof.
  revert pat. induction s as [|b s IH]; intros pat Hp.
  - reflexivity.
  - destruct pat as [|a pat]; [reflexivity |].
    simpl in Hp. apply andb_true_iff in Hp as [Ha Hp].
    apply andb_true_iff in Ha as [Hslash Hback].
    apply negb_true_iff, Ascii.eqb_neq in Hslash.
    apply negb_true_iff, Ascii.eqb_neq in Hback.
    simpl. rewrite (IH pat Hp).
    destruct (Ascii.eqb_spec b "\") as [-> | Hb]; [| reflexivity].
    destruct (Ascii.eqb_spec "/" a) as [<- | _]; [contradiction |].
    destruct (Ascii.eqb_spec "\" a) as [<- | _]; [contradiction | reflexivity].
Qed.

Lemma endsWith_replace_backslashes (pat s : string) :
  plain pat = true ->
  Js.endsWith (Js.replace_backslashes s) pat = Js.endsWith s pat.
Proof.
  intros Hp. induction s as [|b s IH].
  - reflexivity.
  - change (Js.endsWith (String b s) pat)
      with (String.eqb (String b s) pat || Js.endsWith s pat).
    rewrite <- IH, <- (eqb_replace_backslashes pat (String b s) Hp). reflexivity.
Qed.

Lemma exclude_test_raw (filePath pattern : string) :
  plain pattern = true ->
  Js.startsWith pattern "." && (0 <? Js.lastIndexOf pattern ".")%Z
    = bool_decide (pattern ∈ suffix_patterns) ->
  (if Js.startsWith pattern "." && (0 <? Js.lastIndexOf pattern ".")%Z
   then Js.endsWith (Js.replace_backslashes filePath) pattern
   else Js.includes (Js.replace_backslashes filePath) pattern)
  = (if bool_decide (pattern ∈ suffix_patterns)
     then Js.endsWith filePath pattern
     else Js.includes filePath pattern).
Proof.
  intros Hp ->.
  now rewrite endsWith_replace_backslashes, includes_replace_backslashes.
Qed.

(** Every pattern is free of slashes, and the two that start with a dot
    and have another dot are the suffix patterns. *)
Lemma exclude_patterns_shape (pattern : string) :
  In pattern Headers.EXCLUDE_PATTERNS ->
  plain pattern = true /\
  Js.startsWith pattern "." && (0 <? Js.lastIndexOf pattern ".")%Z
    = bool_decide (pattern ∈ suffix_patterns).
Proof.
  unfold Headers.EXCLUDE_PATTERNS. simpl.
  intros Hin.
  repeat (destruct Hin as [<- | Hin]; [split; vm_compute; reflexivity |]).
  contradiction.
Qed.

(** A path is excluded exactly when it ends with ['.spec.ts'] or
    ['.spec.js'], or has one of the other patterns anywhere in it, be it in
    the middle of a name; replacing backslashes makes no difference, since
    no pattern has a slash. *)
Theorem shouldExclude_iff (filePath : string) :
  Headers.shouldExclude filePath = true <->
  exists pattern : string,
    pattern ∈ Headers.EXCLUDE_PATTERNS /\
    (if bool_decide (pattern ∈ suffix_patterns)
     then Js.endsWith filePath pattern
     else Js.includes filePath pattern) = true.
Proof.
  unfold Headers.shouldExclude. rewrite existsb_exists.
  split; intros (pattern & Hin & Htest); exists pattern.
  - destruct (exclude_patterns_shape pattern Hin) as [Hp Hs].
    split; [now apply list_elem_of_In |].
    now rewrite <- (exclude_test_raw filePath pattern Hp Hs).
  - apply list_elem_of_In in Hin.
    destruct (exclude_patterns_shape pattern Hin) as [Hp Hs].
    split; [exact Hin |].
    now rewrite (exclude_test_raw filePath pattern Hp Hs).
Qed.

Section Scripts.

Context `{Platform}.

Lemma keeps_fs_ret {A : Type} (x : A) : keeps_fs (mret x).
Proof. intros w. reflexivity. Qed.

Lemma keeps_fs_bind {A B : Type} (m : M A) (f : A -> M B) :
  keeps_fs m -> (forall x, keeps_fs (f x)) -> keeps_fs (m ≫= f).
Proof.
  intros Hm Hf w. unfold mbind, M_bind.
  specialize (Hm w). destruct (m w) as [x w1]. simpl in Hm.
  rewrite <- Hm. apply Hf.
Qed.

Lemma keeps_fs_print (out : Stream) (line : string) : keeps_fs (print out line).
Proof. intros w. reflexivity. Qed.

Lemma keeps_fs_existsSync (path : string) : keeps_fs (existsSync path).
Proof. intros w. reflexivity. Qed.

Lemma keeps_fs_readFileSync (path : string) : keeps_fs (readFileSync path).
Proof. intros w. reflexivity. Qed.

Ltac keeps_fs_step :=
  first
    [ apply keeps_fs_ret
    | apply keeps_fs_print
    | apply keeps_fs_existsSync
    | apply keeps_fs_readFileSync
    | apply keeps_fs_bind; [| intros ?]
    | match goal with
      | |- keeps_fs (if ?b then _ else _) => destruct b
      | |- keeps_fs (match ?x with _ => _ end) => destruct x
      end ].

Ltac keeps_fs_auto := unfold console_log, console_error; repeat keeps_fs_step.

Lemma addHeaderToFile_dry_keeps_fs (filePath : string) :
  keeps_fs (AddHeaders.addHeaderToFile filePath true).
Proof. unfold AddHeaders.addHeaderToFile. keeps_fs_auto. Qed.

Lemma add_main_forEach_dry_keeps_fs (files : list string) (m s : nat) :
  keeps_fs (AddHeaders.main_forEach files true m s).
Proof.
  revert m s. induction files as [|filePath files IH]; intros m s; simpl.
  - apply keeps_fs_ret.
  - apply keeps_fs_bind; [apply keeps_fs_existsSync |].
    intros found. destruct (negb found).
    + apply keeps_fs_bind; [apply keeps_fs_print | intros _; apply IH].
    + apply keeps_fs_bind; [apply addHeaderToFile_dry_keeps_fs |].
      intros [|]; apply IH.
Qed.

(** With [--dry-run] or [-d] among the arguments, [main] leaves every file
    as it is: nothing is written, whatever the files hold. *)
Theorem add_main_dry_run_writes_nothing (args : list string) (w : World) :
  Headers.array_includes args "--dry-run" || Headers.array_includes args "-d" = true ->
  fs (snd (AddHeaders.main args w)) = fs w.
Proof.
  intros Hdry. revert w. change (keeps_fs (AddHeaders.main args)).
  unfold AddHeaders.main. rewrite Hdry.
  destruct (Nat.eqb _ 0).
  - keeps_fs_auto.
  - apply keeps_fs_bind; [apply keeps_fs_print |]. intros _.
    apply keeps_fs_bind; [apply add_main_forEach_dry_keeps_fs |]. intros counts.
    keeps_fs_auto.
Qed.

(** Every file named on the command line is counted once: the loop of
    [main] adds as much to the two counters together as there are files. *)
Theorem add_main_forEach_counts (files : list string) (dryRun : bool)
    (modifiedCount skippedCount : nat) (w : World) :
  fst (fst (AddHeaders.main_forEach files dryRun modifiedCount skippedCount w))
  + snd (fst (AddHeaders.main_forEach files dryRun modifiedCount skippedCount w))
  = modifiedCount + skippedCount + length files.
Proof.
  revert modifiedCount skippedCount w.
  induction files as [|filePath files IH]; intros m s w; simpl.
  - lia.
  - unfold mbind, M_bind, existsSync.
    destruct (negb (bool_decide (is_Some (fs w !! filePath)))).
    + unfold console_error, print. rewrite IH. lia.
    + destruct (AddHeaders.addHeaderToFile filePath dryRun w) as [[|] w1];
        rewrite IH; lia.
Qed.

Lemma length_eqb_0 (s : string) : Nat.eqb (String.length s) 0 = false <-> s <> "".
Proof.
  destruct s; simpl; split; intros Hs; try reflexivity; try discriminate.
  now contradiction Hs.
Qed.

Ltac unfold_script :=
  unfold readFileSync, writeFileSync, existsSync, console_log, console_error,
    print, mbind, M_bind, mret, M_ret.

(** [addHeaderToFile] in a dry run: [true] exactly for the eligible files. *)
Lemma addHeaderToFile_dry_true_iff (filePath : string) (w : World) :
  fst (AddHeaders.addHeaderToFile filePath true w) = true <->
  exists headerType content, eligible filePath headerType content w.
Proof.
  unfold eligible, AddHeaders.addHeaderToFile. unfold_script.
  destruct (Headers.shouldExclude filePath) eqn:Hex; simpl.
  { split; [discriminate | intros (t & c & Hx & _); discriminate Hx]. }
  destruct (AddHeaders.getHeaderType filePath) as [t|] eqn:Ht; simpl.
  2: { split; [discriminate | intros (t & c & _ & Hx & _); discriminate Hx]. }
  destruct (fs w !! filePath) as [[[c|msg] werr]|] eqn:Hfs; simpl.
  2: { split; [discriminate |].
       intros (t' & c & _ & _ & (e & He & Hc) & _).
       injection He as <-. discriminate Hc. }
  2: { split; [discriminate |].
       intros (t' & c & _ & _ & (e & He & _) & _). discriminate He. }
  destruct (AddHeaders.hasHeader c t) eqn:Hh; simpl.
  { split; [discriminate |].
    intros (t' & c' & _ & Ht' & (e & He & Hc) & Hh' & _).
    injection Ht' as <-. injection He as <-. injection Hc as <-. congruence. }
  destruct (Nat.eqb (String.length (Js.trim c)) 0) eqn:Hblank; simpl.
  { split; [discriminate |].
    intros (t' & c' & _ & _ & (e & He & Hc) & _ & Hne).
    injection He as <-. injection Hc as <-.
    apply length_eqb_0 in Hne. congruence. }
  split; [| reflexivity]. intros _. exists t, c.
  split; [reflexivity |]. split; [reflexivity |].
  split; [eexists; split; reflexivity |].
  split; [exact Hh | now apply length_eqb_0].
Qed.

(** The real run of [addHeaderToFile], case by case: nothing to do, a
    write that fails, or a write that succeeds. *)
Lemma addHeaderToFile_run_cases (filePath : string) (w : World) :
  (fst (AddHeaders.addHeaderToFile filePath false w) = false /\
   fs (snd (AddHeaders.addHeaderToFile filePath false w)) = fs w /\
   ~ (exists headerType content, eligible filePath headerType content w)) \/
  (exists headerType content e failure,
     eligible filePath headerType content w /\
     fs w !! filePath = Some e /\ write_error e = Some failure /\
     fst (AddHeaders.addHeaderToFile filePath false w) = false /\
     fs (snd (AddHeaders.addHeaderToFile filePath false w))
       = match written_before failure with
         | None => fs w
         | Some n =>
             <[filePath := {| content :=
                                inl (String.substring 0 n
                                       (AddHeaders.HEADERS headerType +:+ content));
                              write_error := Some failure |}]> (fs w)
         end) \/
  (exists headerType content,
     eligible filePath headerType content w /\ writable filePath w /\
     fst (AddHeaders.addHeaderToFile filePath false w) = true /\
     fs (snd (AddHeaders.addHeaderToFile filePath false w))
       = <[filePath := written (AddHeaders.HEADERS headerType +:+ content)]> (fs w)).
Proof.
  unfold eligible, writable, AddHeaders.addHeaderToFile. unfold_script.
  destruct (Headers.shouldExclude filePath) eqn:Hex; simpl.
  { left. split; [reflexivity |]. split; [reflexivity |].
    intros (t & c & Hx & _). discriminate Hx. }
  destruct (AddHeaders.getHeaderType filePath) as [t|] eqn:Ht; simpl.
  2: { left. split; [reflexivity |]. split; [reflexivity |].
       intros (t & c & _ & Hx & _). discriminate Hx. }
  destruct (fs w !! filePath) as [[[c|msg] werr]|] eqn:Hfs; simpl.
  2: { left. split; [reflexivity |]. split; [reflexivity |].
       intros (t' & c & _ & _ & (e & He & Hc) & _).
       injection He as <-. discriminate Hc. }
  2: { left. split; [reflexivity |]. split; [reflexivity |].
       intros (t' & c & _ & _ & (e & He & _) & _). discriminate He. }
  destruct (AddHeaders.hasHeader c t) eqn:Hh; simpl.
  { left. split; [reflexivity |]. split; [reflexivity |].
    intros (t' & c' & _ & Ht' & (e & He & Hc) & Hh' & _).
    injection Ht' as <-. injection He as <-. injection Hc as <-. congruence. }
  destruct (Nat.eqb (String.length (Js.trim c)) 0) eqn:Hblank; simpl.
  { left. split; [reflexivity |]. split; [reflexivity |].
    intros (t' & c' & _ & _ & (e & He & Hc) & _ & Hne).
    injection He as <-. injection Hc as <-.
    apply length_eqb_0 in Hne. congruence. }
  rewrite Hfs. destruct werr as [failure|]; simpl.
  - right; left. exists t, c, {| content := inl c; write_error := Some failure |}, failure.
    split.
    { split; [reflexivity |]. split; [reflexivity |].
      split; [eexists; split; reflexivity |].
      split; [exact Hh | now apply length_eqb_0]. }
    split; [reflexivity |]. split; [reflexivity |].
    destruct (written_before failure); simpl; split; reflexivity.
  - right; right. exists t, c.
    split.
    { split; [reflexivity |]. split; [reflexivity |].
      split; [eexists; split; reflexivity |].
      split; [exact Hh | now apply length_eqb_0]. }
    split; [intros e He; injection He as <-; reflexivity |].
    split; reflexivity.
Qed.

Lemma eligible_unique (filePath : string) (w : World)
    (t t' : AddHeaders.HeaderType) (c c' : string) :
  eligible filePath t c w -> eligible filePath t' c' w -> t = t' /\ c = c'.
Proof.
  intros (_ & Ht & (e & He & Hc) & _) (_ & Ht' & (e' & He' & Hc') & _).
  split; [congruence |].
  rewrite He in He'. injection He' as <-. congruence.
Qed.

(** What [addHeaderToFile] does to the files.  It returns [true] exactly
    for an eligible file that can be written, and then replaces the text
    of that file by the header followed by that text.  Where it finds
    nothing to do, no file changes.  When it returns [false] no file has
    changed either, with one exception: the write itself failed after
    opening the file, which then holds the part of the new text that was
    written before the error; no other file changes then. *)
Theorem addHeaderToFile_effect (filePath : string) (w : World) :
  (fst (AddHeaders.addHeaderToFile filePath false w) = true <->
     exists headerType content,
       eligible filePath headerType content w /\ writable filePath w) /\
  (forall headerType content,
     eligible filePath headerType content w -> writable filePath w ->
     fs (snd (AddHeaders.addHeaderToFile filePath false w))
       = <[filePath := written (AddHeaders.HEADERS headerType +:+ content)]> (fs w)) /\
  (~ (exists headerType content, eligible filePath headerType content w) ->
     fs (snd (AddHeaders.addHeaderToFile filePath false w)) = fs w) /\
  (fst (AddHeaders.addHeaderToFile filePath false w) = false ->
     fs (snd (AddHeaders.addHeaderToFile filePath false w)) = fs w \/
     exists headerType content e failure n,
       eligible filePath headerType content w /\
       fs w !! filePath = Some e /\ write_error e = Some failure /\
       written_before failure = Some n /\
       fs (snd (AddHeaders.addHeaderToFile filePath false w))
         = <[filePath := {| content :=
                              inl (String.substring 0 n
                                     (AddHeaders.HEADERS headerType +:+ content));
                            write_error := Some failure |}]> (fs w)).
Proof.
  destruct (addHeaderToFile_run_cases filePath w)
    as [(Hr & Hfs & Hno)
       | [(t & c & e & failure & He & Hpath & Hwe & Hr & Hfs)
         | (t & c & He & Hw & Hr & Hfs)]].
  - split.
    { split; [rewrite Hr; discriminate |].
      intros (t & c & He & _). exfalso. apply Hno. now exists t, c. }
    split.
    { intros t c He _. exfalso. apply Hno. now exists t, c. }
    split; [intros _; exact Hfs | intros _; left; exact Hfs].
  - split.
    { split; [rewrite Hr; discriminate |].
      intros (t' & c' & _ & Hw). specialize (Hw e Hpath). congruence. }
    split.
    { intros t' c' _ Hw. specialize (Hw e Hpath). congruence. }
    split.
    { intros Hno. exfalso. apply Hno. now exists t, c. }
    intros _. destruct (written_before failure) as [n|] eqn:Hn.
    + right. exists t, c, e, failure, n. auto.
    + left. exact Hfs.
  - split; [split; [intros _; now exists t, c | intros _; exact Hr] |].
    split.
    { intros t' c' He' _.
      destruct (eligible_unique _ _ _ _ _ _ He He') as [<- <-]. exact Hfs. }
    split; [| rewrite Hr; discriminate].
    intros Hno. exfalso. apply Hno. now exists t, c.
Qed.

(** The dry run tells what the real run will do: for a file that can be
    written the two return the same. *)
Theorem addHeaderToFile_dry_run_predicts (filePath : string) (w : World) :
  writable filePath w ->
  fst (AddHeaders.addHeaderToFile filePath true w)
  = fst (AddHeaders.addHeaderToFile filePath false w).
Proof.
  intros Hw.
  destruct (addHeaderToFile_run_cases filePath w)
    as [(Hr & _ & Hno)
       | [(t & c & e & failure & _ & Hpath & Hwe & _)
         | (t & c & He & _ & Hr & _)]].
  - rewrite Hr.
    destruct (fst (AddHeaders.addHeaderToFile filePath true w)) eqn:Hd; [| reflexivity].
    apply addHeaderToFile_dry_true_iff in Hd. contradiction.
  - specialize (Hw e Hpath). congruence.
  - rewrite Hr. apply addHeaderToFile_dry_true_iff. now exists t, c.
Qed.

(** The header the script writes has the copyright line in it but not the
    words 'Mozilla Public License' in a row: a line break comes between
    'Public' and 'License'. *)
Lemma hasHeader_of_own_header (headerType : AddHeaders.HeaderType) (content : string) :
  AddHeaders.hasHeader (AddHeaders.HEADERS headerType +:+ content) headerType
  = Js.includes content "Mozilla Public License".
Proof. destruct headerType; vm_compute; reflexivity. Qed.

Lemma trim_not_empty (a : ascii) (s : string) :
  Js.skip_space (String a s) = None -> Js.trim (String a s) <> "".
Proof.
  intros Hskip.
  assert (Hstart : Js.trimStart (String a s) = String a s).
  { unfold Js.trimStart. change (String.length (String a s)) with (S (String.length s)).
    unfold Js.trimStart_go. now rewrite Hskip. }
  unfold Js.trim. rewrite Hstart.
  change (Js.trimEnd (String a s))
    with (if Js.all_space (String a s) then EmptyString else String a (Js.trimEnd s)).
  unfold Js.all_space. rewrite Hstart. discriminate.
Qed.

Lemma trim_own_header_not_empty (headerType : AddHeaders.HeaderType) (content : string) :
  Js.trim (AddHeaders.HEADERS headerType +:+ content) <> "".
Proof. destruct headerType; apply trim_not_empty; reflexivity. Qed.

(** The script does not know its own header again.  Run twice on a file
    whose text does not happen to contain 'Mozilla Public License', it
    reports a change both times and leaves the header there twice. *)
Theorem addHeaderToFile_twice (filePath : string) (headerType : AddHeaders.HeaderType)
    (content : string) (w : World) :
  eligible filePath headerType content w ->
  writable filePath w ->
  Js.includes content "Mozilla Public License" = false ->
  fst (AddHeaders.addHeaderToFile filePath false w) = true /\
  fst (AddHeaders.addHeaderToFile filePath false
         (snd (AddHeaders.addHeaderToFile filePath false w))) = true /\
  fs (snd (AddHeaders.addHeaderToFile filePath false
             (snd (AddHeaders.addHeaderToFile filePath false w)))) !! filePath
    = Some (written (AddHeaders.HEADERS headerType +:+ AddHeaders.HEADERS headerType
                     +:+ content)).
Proof.
  intros He Hw Hno.
  destruct (addHeaderToFile_run_cases filePath w)
    as [(_ & _ & Hnot)
       | [(t & c & e & failure & _ & Hpath & Hwe & _)
         | (t & c & He' & _ & Hr & Hfs)]].
  { exfalso. apply Hnot. now exists headerType, content. }
  { specialize (Hw e Hpath). congruence. }
  destruct (eligible_unique _ _ _ _ _ _ He He') as [<- <-].
  split; [exact Hr |].
  set (w1 := snd (AddHeaders.addHeaderToFile filePath false w)) in *.
  assert (He1 : eligible filePath headerType
                  (AddHeaders.HEADERS headerType +:+ content) w1).
  { destruct He as (Hex & Ht & _ & _ & _).
    split; [exact Hex |]. split; [exact Ht |].
    split; [exists (written (AddHeaders.HEADERS headerType +:+ content));
            rewrite Hfs, lookup_insert_eq; split; reflexivity |].
    split; [now rewrite hasHeader_of_own_header |].
    apply trim_own_header_not_empty. }
  assert (Hw1 : writable filePath w1).
  { intros e. rewrite Hfs, lookup_insert_eq. intros Heq.
    injection Heq as <-. reflexivity. }
  destruct (addHeaderToFile_run_cases filePath w1)
    as [(_ & _ & Hnot)
       | [(t & c & e & failure & _ & Hpath & Hwe & _)
         | (t & c & He1' & _ & Hr1 & Hfs1)]].
  { exfalso. apply Hnot. eauto. }
  { specialize (Hw1 e Hpath). congruence. }
  destruct (eligible_unique _ _ _ _ _ _ He1 He1') as [<- <-].
  split; [exact Hr1 |].
  now rewrite Hfs1, lookup_insert_eq.
Qed.

Lemma getExpectedHeader_of_type (filePath : string) (headerType : AddHeaders.HeaderType) :
  AddHeaders.getHeaderType filePath = Some headerType ->
  CheckHeaders.getExpectedHeader filePath = Some (expected_lines headerType).
Proof.
  unfold AddHeaders.getHeaderType, CheckHeaders.getExpectedHeader.
  destruct (Headers.array_includes Headers.FILE_EXTENSIONS_html _).
  - intros Heq. injection Heq as <-. reflexivity.
  - destruct (Headers.array_includes Headers.FILE_EXTENSIONS_code _).
    + intros Heq. injection Heq as <-. reflexivity.
    + discriminate.
Qed.

(** What one script writes the other accepts: a file that holds the header
    of [add-file-headers.js] followed by any text passes the check, and the
    check says nothing about it. *)
Theorem check_accepts_added_header (filePath : string)
    (headerType : AddHeaders.HeaderType) (content : string) (e : Entry) (w : World) :
  AddHeaders.getHeaderType filePath = Some headerType ->
  fs w !! filePath = Some e ->
  Node.content e = inl (AddHeaders.HEADERS headerType +:+ content) ->
  CheckHeaders.hasValidHeader filePath w = (true, w).
Proof.
  intros Ht He Hc.
  unfold CheckHeaders.hasValidHeader.
  destruct (Headers.shouldExclude filePath); [reflexivity |].
  rewrite (getExpectedHeader_of_type _ _ Ht).
  unfold_script. rewrite He, Hc.
  pose proof (trim_own_header_not_empty headerType content) as Hne.
  apply length_eqb_0 in Hne. rewrite Hne.
  assert (Hlen : Nat.ltb (length (Js.split_lines (AddHeaders.HEADERS headerType +:+ content)))
                   (CheckHeaders.startLine
                      (Js.split_lines (AddHeaders.HEADERS headerType +:+ content))
                    + length (expected_lines headerType)) = false).
  { destruct headerType; vm_compute; reflexivity. }
  rewrite Hlen.
  assert (Hcmp : CheckHeaders.compare_lines
                   (Js.split_lines (AddHeaders.HEADERS headerType +:+ content))
                   (expected_lines headerType)
                   (CheckHeaders.startLine
                      (Js.split_lines (AddHeaders.HEADERS headerType +:+ content)))
                 = true).
  { destruct headerType; vm_compute; reflexivity. }
  now rewrite Hcmp.
Qed.

Lemma hasValidHeader_keeps_fs (filePath : string) :
  keeps_fs (CheckHeaders.hasValidHeader filePath).
Proof. unfold CheckHeaders.hasValidHeader. keeps_fs_auto. Qed.

Lemma hasValidHeader_reads_fs_only (filePath : string) (w w' : World) :
  fs w = fs w' ->
  fst (CheckHeaders.hasValidHeader filePath w)
  = fst (CheckHeaders.hasValidHeader filePath w').
Proof.
  intros Hfs. unfold CheckHeaders.hasValidHeader.
  destruct (Headers.shouldExclude filePath); [reflexivity |].
  destruct (CheckHeaders.getExpectedHeader filePath) as [expected|]; [| reflexivity].
  unfold_script. rewrite <- Hfs.
  destruct (fs w !! filePath) as [[[c|msg] werr]|]; simpl; try reflexivity.
  destruct (Nat.eqb (String.length (Js.trim c)) 0); [reflexivity |].
  destruct (Nat.ltb _ _); reflexivity.
Qed.

Lemma failing_same_fs (args : list string) (w w' : World) :
  fs w = fs w' -> failing args w = failing args w'.
Proof.
  intros Hfs. unfold failing. induction args as [|p args IH]; [reflexivity |].
  simpl. rewrite IH, (hasValidHeader_reads_fs_only p w w' Hfs), Hfs. reflexivity.
Qed.

Lemma check_main_collect_spec (args acc : list string) (w : World) :
  fs (snd (CheckHeaders.main_collect args acc w)) = fs w /\
  fst (CheckHeaders.main_collect args acc w) = (acc ++ failing args w)%list.
Proof.
  revert acc w. induction args as [|p args IH]; intros acc w; simpl.
  - split; [reflexivity | now rewrite app_nil_r].
  - unfold mbind, M_bind, existsSync.
    destruct (bool_decide (is_Some (fs w !! p))) eqn:Hex; simpl.
    + pose proof (hasValidHeader_keeps_fs p w) as Hfs.
      destruct (CheckHeaders.hasValidHeader p w) as [valid w1] eqn:Hv.
      simpl in Hfs. simpl.
      destruct valid; simpl;
        destruct (IH acc w1) as [IHfs IHl];
        destruct (IH (acc ++ [p])%list w1) as [IHfs' IHl'].
      * rewrite IHfs, IHl, (failing_same_fs args w1 w Hfs). auto.
      * rewrite IHfs', IHl', (failing_same_fs args w1 w Hfs), <- app_assoc. auto.
    + unfold console_error, print.
      destruct (IH acc {| fs := fs w;
                          console := (console w ++ [(stderr, "File not found: " +:+ p)])%list |})
        as [IHfs IHl].
      rewrite IHfs, IHl. split; [reflexivity |]. f_equal.
      now apply failing_same_fs.
Qed.

Lemma check_main_report_keeps_fs (files : list string) :
  keeps_fs (CheckHeaders.main_report files).
Proof.
  induction files as [|file files IH]; simpl; [apply keeps_fs_ret |].
  apply keeps_fs_bind; [apply keeps_fs_print |]. intros _.
  apply keeps_fs_bind; [| intros _; exact IH].
  destruct (CheckHeaders.getExpectedHeader file); keeps_fs_auto.
Qed.

(** The check only reads: [main] leaves every file as it is. *)
Theorem check_main_writes_nothing (args : list string) (w : World) :
  fs (snd (CheckHeaders.main args w)) = fs w.
Proof.
  revert w. change (keeps_fs (CheckHeaders.main args)).
  unfold CheckHeaders.main.
  destruct (Nat.eqb (length args) 0); [keeps_fs_auto |].
  apply keeps_fs_bind.
  { intros w. apply check_main_collect_spec. }
  intros files. destruct (Nat.ltb 0 (length files)); [| keeps_fs_auto].
  apply keeps_fs_bind; [apply keeps_fs_print |]. intros _.
  apply keeps_fs_bind; [apply keeps_fs_print |]. intros _.
  apply keeps_fs_bind; [apply check_main_report_keeps_fs |]. intros _.
  keeps_fs_auto.
Qed.




Lemma string_append_nil_r (s : string) : s +:+ "" = s.
Proof.
  induction s as [|a s IH]; [reflexivity |].
  change (String a (s +:+ "") = String a s). now rewrite IH.
Qed.

Lemma split_lines_go_line (line rest cur : string) :
  one_line line = true ->
  Js.split_lines_go (line +:+ String Js.LF rest) cur
  = (cur +:+ line) :: Js.split_lines_go rest "".
Proof.
  revert cur. induction line as [|a line IH]; intros cur Hone.
  - rewrite string_append_nil_r. reflexivity.
  - simpl in Hone. apply andb_true_iff in Hone as [Ha Hone].
    apply andb_true_iff in Ha as [Hlf Hcr].
    apply negb_true_iff in Hlf. apply negb_true_iff in Hcr.
    change (String a line +:+ String Js.LF rest)
      with (String a (line +:+ String Js.LF rest)).
    assert (Hstep : Js.split_lines_go (String a (line +:+ String Js.LF rest)) cur
                    = Js.split_lines_go (line +:+ String Js.LF rest)
                        (cur +:+ String a "")).
    { destruct line as [|b line]; simpl; rewrite Hlf, ?Hcr; reflexivity. }
    rewrite Hstep, (IH _ Hone), append_assoc. reflexivity.
Qed.

(** The check allows for a [#!] line, and for one blank line after it:
    a file that has the header right after these passes. *)
Theorem check_accepts_header_after_shebang (filePath : string)
    (headerType : AddHeaders.HeaderType) (interpreter rest : string) (blank : bool)
    (e : Entry) (w : World) :
  AddHeaders.getHeaderType filePath = Some headerType ->
  one_line interpreter = true ->
  fs w !! filePath = Some e ->
  Node.content e
    = inl ("#!" +:+ interpreter +:+ Js.nl +:+ (if blank then Js.nl else "")
           +:+ Js.join Js.nl (expected_lines headerType) +:+ Js.nl +:+ rest) ->
  CheckHeaders.hasValidHeader filePath w = (true, w).
Proof.
  intros Ht Hone He Hc.
  unfold CheckHeaders.hasValidHeader.
  destruct (Headers.shouldExclude filePath); [reflexivity |].
  rewrite (getExpectedHeader_of_type _ _ Ht).
  unfold_script. rewrite He, Hc.
  set (body := (if blank then Js.nl else "")
               +:+ Js.join Js.nl (expected_lines headerType) +:+ Js.nl +:+ rest).
  change ("#!" +:+ interpreter +:+ Js.nl +:+ body)
    with (String "#" (String "!" interpreter) +:+ String Js.LF body).
  assert (Hne : Js.trim (String "#" (String "!" interpreter) +:+ String Js.LF body) <> "").
  { apply trim_not_empty. destruct interpreter; reflexivity. }
  apply length_eqb_0 in Hne. rewrite Hne.
  unfold Js.split_lines.
  rewrite (split_lines_go_line (String "#" (String "!" interpreter)) body "").
  2: { exact Hone. }
  change ("" +:+ String "#" (String "!" interpreter))
    with (String "#" (String "!" interpreter)).
  assert (Hstart : forall l1 ls,
             CheckHeaders.startLine (String "#" (String "!" interpreter) :: l1 :: ls)
             = if String.eqb (Js.trim l1) "" then 2 else 1).
  { intros l1 ls. unfold CheckHeaders.startLine, Js.startsWith.
    destruct interpreter; reflexivity. }
  subst body.
  destruct headerType, blank;
    match goal with
    | |- context [Js.split_lines_go ?b ""] =>
        let ls := eval vm_compute in (Js.split_lines_go b "") in
        change (Js.split_lines_go b "") with ls
    end;
    rewrite Hstart; vm_compute; reflexivity.
Qed.

(** Line ends do not matter to the check: the header with Windows line
    ends passes as well. *)
Theorem check_accepts_crlf_header (filePath : string)
    (headerType : AddHeaders.HeaderType) (rest : string) (e : Entry) (w : World) :
  AddHeaders.getHeaderType filePath = Some headerType ->
  fs w !! filePath = Some e ->
  Node.content e
    = inl (Js.join (String Js.CR Js.nl) (expected_lines headerType)
           +:+ String Js.CR Js.nl +:+ rest) ->
  CheckHeaders.hasValidHeader filePath w = (true, w).
Proof.
  intros Ht He Hc.
  unfold CheckHeaders.hasValidHeader.
  destruct (Headers.shouldExclude filePath); [reflexivity |].
  rewrite (getExpectedHeader_of_type _ _ Ht).
  unfold_script. rewrite He, Hc.
  assert (Hne : Js.trim (Js.join (String Js.CR Js.nl) (expected_lines headerType)
                         +:+ String Js.CR Js.nl +:+ rest) <> "").
  { destruct headerType; apply trim_not_empty; reflexivity. }
  apply length_eqb_0 in Hne. rewrite Hne.
  destruct headerType; vm_compute; reflexivity.
Qed.

End Scripts.

(** ** The scripts on a sample file *)

Lemma sample_eligible :
  @eligible sample_platform "src/app/app.component.ts" AddHeaders.code sample_text
    sample_world.
Proof.
  split; [reflexivity |]. split; [reflexivity |].
  split; [exists (written sample_text); split; reflexivity |].
  split; [reflexivity |].
  vm_compute. discriminate.
Defined.

Lemma sample_writable : writable "src/app/app.component.ts" sample_world.
Proof.
  intros e He. vm_compute in He. injection He as <-. reflexivity.
Defined.

Lemma login_logoPath_never_empty_witness :
  LoginComponent.logoPath
    (LoginComponent.run login_env_oauth2 (Some "acme")
       [LoginComponent.Alert "Tenant Changed" (Some "default"); LoginComponent.LogoError])
  <> "".
Proof.
  exact (login_logoPath_never_empty login_env_oauth2 (Some "acme")
           [LoginComponent.Alert "Tenant Changed" (Some "default");
            LoginComponent.LogoError]).
Defined.

Lemma add_main_dry_run_writes_nothing_witness :
  Headers.array_includes ["-d"; "src/app/app.component.ts"] "--dry-run"
  || Headers.array_includes ["-d"; "src/app/app.component.ts"] "-d" = true /\
  fs (snd (@AddHeaders.main sample_platform ["-d"; "src/app/app.component.ts"]
             sample_world))
  = fs sample_world.
Proof.
  split; [reflexivity |].
  exact (@add_main_dry_run_writes_nothing sample_platform
           ["-d"; "src/app/app.component.ts"] sample_world eq_refl).
Defined.

Lemma sample_eligible_full :
  @eligible sample_platform "src/app/app.component.ts" AddHeaders.code sample_text
    sample_world_full.
Proof.
  split; [reflexivity |]. split; [reflexivity |].
  split; [eexists; split; reflexivity |].
  split; [reflexivity |].
  vm_compute. discriminate.
Defined.

Lemma addHeaderToFile_effect_witness :
  (fst (@AddHeaders.addHeaderToFile sample_platform "src/app/app.component.ts" false
          sample_world) = true /\
   fs (snd (@AddHeaders.addHeaderToFile sample_platform "src/app/app.component.ts" false
              sample_world))
   = <["src/app/app.component.ts"
         := written (AddHeaders.HEADERS AddHeaders.code +:+ sample_text)]>
       (fs sample_world)) /\
  (fst (@AddHeaders.addHeaderToFile sample_platform "src/app/app.component.ts" false
          sample_world_full) = false /\
   (fs (snd (@AddHeaders.addHeaderToFile sample_platform "src/app/app.component.ts" false
               sample_world_full)) = fs sample_world_full \/
    exists headerType content e failure n,
      @eligible sample_platform "src/app/app.component.ts" headerType content
        sample_world_full /\
      fs sample_world_full !! "src/app/app.component.ts" = Some e /\
      write_error e = Some failure /\
      written_before failure = Some n /\
      fs (snd (@AddHeaders.addHeaderToFile sample_platform "src/app/app.component.ts"
                 false sample_world_full))
        = <["src/app/app.component.ts"
              := {| content :=
                      inl (String.substring 0 n
                             (AddHeaders.HEADERS headerType +:+ content));
                    write_error := Some failure |}]> (fs sample_world_full))).
Proof.
  split.
  - pose proof (@addHeaderToFile_effect sample_platform "src/app/app.component.ts"
                  sample_world) as (Htrue & Hfs & _).
    split.
    + apply Htrue. exists AddHeaders.code, sample_text.
      split; [exact sample_eligible | exact sample_writable].
    + exact (Hfs AddHeaders.code sample_text sample_eligible sample_writable).
  - pose proof (@addHeaderToFile_effect sample_platform "src/app/app.component.ts"
                  sample_world_full) as (_ & _ & _ & Hfalse).
    assert (Hr : fst (@AddHeaders.addHeaderToFile sample_platform
                        "src/app/app.component.ts" false sample_world_full) = false)
      by reflexivity.
    split; [exact Hr | exact (Hfalse Hr)].
Defined.

Lemma addHeaderToFile_dry_run_predicts_witness :
  writable "src/app/app.component.ts" sample_world /\
  fst (@AddHeaders.addHeaderToFile sample_platform "src/app/app.component.ts" true
         sample_world)
  = fst (@AddHeaders.addHeaderToFile sample_platform "src/app/app.component.ts" false
           sample_world).
Proof.
  split; [exact sample_writable |].
  exact (@addHeaderToFile_dry_run_predicts sample_platform "src/app/app.component.ts"
           sample_world sample_writable).
Defined.

Lemma addHeaderToFile_twice_witness :
  Js.includes sample_text "Mozilla Public License" = false /\
  fs (snd (@AddHeaders.addHeaderToFile sample_platform "src/app/app.component.ts" false
             (snd (@AddHeaders.addHeaderToFile sample_platform
                     "src/app/app.component.ts" false sample_world))))
    !! "src/app/app.component.ts"
  = Some (written (AddHeaders.HEADERS AddHeaders.code
                   +:+ AddHeaders.HEADERS AddHeaders.code +:+ sample_text)).
Proof.
  split; [reflexivity |].
  exact (proj2 (proj2 (@addHeaderToFile_twice sample_platform
                         "src/app/app.component.ts" AddHeaders.code sample_text
                         sample_world sample_eligible sample_writable eq_refl))).
Defined.

Lemma check_accepts_added_header_witness :
  @AddHeaders.getHeaderType sample_platform "src/app/app.component.ts"
    = Some AddHeaders.code /\
  @CheckHeaders.hasValidHeader sample_platform "src/app/app.component.ts"
    sample_world_added
  = (true, sample_world_added).
Proof.
  split; [reflexivity |].
  exact (@check_accepts_added_header sample_platform "src/app/app.component.ts"
           AddHeaders.code sample_text
           (written (AddHeaders.HEADERS AddHeaders.code +:+ sample_text))
           sample_world_added eq_refl eq_refl eq_refl).
Defined.



Lemma check_accepts_header_after_shebang_witness :
  one_line "/usr/bin/env node" = true /\
  @CheckHeaders.hasValidHeader sample_platform "scripts/tool.js" sample_script_world
  = (true, sample_script_world).
Proof.
  split; [reflexivity |].
  exact (@check_accepts_header_after_shebang sample_platform "scripts/tool.js"
           AddHeaders.code "/usr/bin/env node" "main();" true _ sample_script_world
           eq_refl eq_refl eq_refl eq_refl).
Defined.


Lemma check_accepts_crlf_header_witness :
  @CheckHeaders.hasValidHeader sample_platform "src/main.ts" sample_crlf_world
  = (true, sample_crlf_world).
Proof.
  exact (@check_accepts_crlf_header sample_platform "src/main.ts" AddHeaders.code
           "export {};" _ sample_crlf_world eq_refl eq_refl eq_refl).
Defined.
